(** * accmgr4: the software-installation handler (software.go)

    A shallow embedding of [software.go]: the package catalog, the
    package-name sanitizer, the construction of the remote installation
    script and the rendering of the installation log, together with the
    parts of Go's [strings], [unicode] and [unicode/utf8] packages that the
    file calls.

    Go strings are byte sequences; they are modelled by [string], whose
    characters ([ascii]) are the 256 byte values. *)

From Stdlib Require Import ZArith Ascii String List Bool Lia.
From stdpp Require Import gmap strings.

Local Open Scope Z_scope.

(** ** Bytes and slices *)

Definition byteVal (c : ascii) : Z := Z.of_N (N_of_ascii c).

(** [s[:n]] and [s[n:]] (clamped at the end of the string). *)
Fixpoint takeS (n : nat) (s : string) : string :=
  match n, s with
  | S n', String c s' => String c (takeS n' s')
  | _, _ => EmptyString
  end.

Fixpoint dropS (n : nat) (s : string) : string :=
  match n, s with
  | S n', String _ s' => dropS n' s'
  | _, _ => s
  end.

(** The strings of a list written one after the other. *)
Definition concatS (l : list string) : string :=
  fold_right String.append EmptyString l.

(** [s[i]], 0 out of range (never read there). *)
Definition byteAt (s : string) (i : nat) : Z :=
  match String.get i s with
  | Some c => byteVal c
  | None => 0
  end.

(** ** unicode/utf8 *)

Module utf8.

Definition RuneSelf : Z := 0x80.
Definition RuneError : Z := 0xFFFD.
Definition UTFMax : nat := 4.

Definition maskx : Z := 0x3F.
Definition mask2 : Z := 0x1F.
Definition mask3 : Z := 0x0F.
Definition mask4 : Z := 0x07.
Definition locb : Z := 0x80.
Definition hicb : Z := 0xBF.

(** The [first] table together with [acceptRanges]: what a leading byte
    announces. [AS] is an ASCII byte, [XX] an invalid leading byte and
    [Lead sz lo hi] the leading byte of a rune of [sz] bytes whose second
    byte must lie in [lo..hi]. *)
Inductive firstInfo : Type :=
| AS
| XX
| Lead (sz : nat) (lo hi : Z).

Definition first (b : Z) : firstInfo :=
  if b <? 0x80 then AS
  else if b <? 0xC2 then XX
  else if b <? 0xE0 then Lead 2 locb hicb
  else if b =? 0xE0 then Lead 3 0xA0 hicb
  else if b <? 0xED then Lead 3 locb hicb
  else if b =? 0xED then Lead 3 locb 0x9F
  else if b <? 0xF0 then Lead 3 locb hicb
  else if b =? 0xF0 then Lead 4 0x90 hicb
  else if b <? 0xF4 then Lead 4 locb hicb
  else if b =? 0xF4 then Lead 4 locb 0x8F
  else XX.

(** [DecodeRuneInString]: the first rune of [s] and its width in bytes;
    [(RuneError, 0)] on the empty string and [(RuneError, 1)] on an
    invalid encoding. *)
Definition DecodeRuneInString (s : string) : Z * nat :=
  match s with
  | EmptyString => (RuneError, 0%nat)
  | String c0 t0 =>
    let s0 := byteVal c0 in
    match first s0 with
    | AS => (s0, 1%nat)
    | XX => (RuneError, 1%nat)
    | Lead sz lo hi =>
      if (String.length s <? sz)%nat then (RuneError, 1%nat) else
      match t0 with
      | EmptyString => (RuneError, 1%nat)
      | String c1 t1 =>
        let s1 := byteVal c1 in
        if (s1 <? lo) || (hi <? s1) then (RuneError, 1%nat) else
        if (sz <=? 2)%nat then
          (Z.lor (Z.shiftl (Z.land s0 mask2) 6) (Z.land s1 maskx), 2%nat)
        else
        match t1 with
        | EmptyString => (RuneError, 1%nat)
        | String c2 t2 =>
          let s2 := byteVal c2 in
          if (s2 <? locb) || (hicb <? s2) then (RuneError, 1%nat) else
          if (sz <=? 3)%nat then
            (Z.lor (Z.lor (Z.shiftl (Z.land s0 mask3) 12)
                          (Z.shiftl (Z.land s1 maskx) 6))
                   (Z.land s2 maskx), 3%nat)
          else
          match t2 with
          | EmptyString => (RuneError, 1%nat)
          | String c3 _ =>
            let s3 := byteVal c3 in
            if (s3 <? locb) || (hicb <? s3) then (RuneError, 1%nat) else
            (Z.lor (Z.lor (Z.lor (Z.shiftl (Z.land s0 mask4) 18)
                                 (Z.shiftl (Z.land s1 maskx) 12))
                          (Z.shiftl (Z.land s2 maskx) 6))
                   (Z.land s3 maskx), 4%nat)
          end
        end
      end
    end
  end.

(** [RuneStart b]: [b] is not a continuation byte. *)
Definition RuneStart (b : Z) : bool := negb (Z.land b 0xC0 =? 0x80).

(** The backward scan of [DecodeLastRuneInString]:
    [for start--; start >= lim; start-- { if RuneStart(s[start]) { break } }],
    entered with [start] already decremented. *)
Fixpoint scanBack (fuel : nat) (s : string) (lim start : Z) : Z :=
  match fuel with
  | O => start
  | S fuel' =>
    if start <? lim then start
    else if RuneStart (byteAt s (Z.to_nat start)) then start
    else scanBack fuel' s lim (start - 1)
  end.

Definition DecodeLastRuneInString (s : string) : Z * nat :=
  let end_ := Z.of_nat (String.length s) in
  if end_ =? 0 then (RuneError, 0%nat) else
  let start := end_ - 1 in
  let r := byteAt s (Z.to_nat start) in
  if r <? RuneSelf then (r, 1%nat) else
  let lim := Z.max 0 (end_ - Z.of_nat UTFMax) in
  let start := scanBack UTFMax s lim (start - 1) in
  let start := Z.max 0 start in
  let '(r, size) := DecodeRuneInString (dropS (Z.to_nat start) s) in
  if start + Z.of_nat size =? end_ then (r, size) else (RuneError, 1%nat).

(** [for i, r := range s]: the runes of [s] in order, each with the bytes
    it was decoded from. Every step consumes at least one byte, so
    [length s] steps exhaust the string. *)
Fixpoint rangeRunes (fuel : nat) (s : string) : list (Z * string) :=
  match fuel with
  | O => []
  | S fuel' =>
    match s with
    | EmptyString => []
    | String _ _ =>
      let '(r, n) := DecodeRuneInString s in
      (r, takeS n s) :: rangeRunes fuel' (dropS n s)
    end
  end.

Definition rangeString (s : string) : list (Z * string) :=
  rangeRunes (String.length s) s.

End utf8.

(** ** unicode *)

Module unicode.

Definition MaxLatin1 : Z := 0xFF.

(** [unicode.IsSpace]: the Latin-1 cases of the switch, then the
    [White_Space] range table above Latin-1. *)
Definition IsSpace (r : Z) : bool :=
  if (0 <=? r) && (r <=? MaxLatin1) then
    (r =? 0x09) || (r =? 0x0A) || (r =? 0x0B) || (r =? 0x0C) || (r =? 0x0D)
    || (r =? 0x20) || (r =? 0x85) || (r =? 0xA0)
  else
    (r =? 0x1680)
    || ((0x2000 <=? r) && (r <=? 0x200A))
    || (r =? 0x2028) || (r =? 0x2029)
    || (r =? 0x202F) || (r =? 0x205F)
    || (r =? 0x3000).

End unicode.

(** ** strings *)

Module strings.

(** [strings.HasPrefix s prefix]. *)
Fixpoint HasPrefix (s prefix : string) {struct prefix} : bool :=
  match prefix, s with
  | EmptyString, _ => true
  | String p prefix', String c s' => Ascii.eqb c p && HasPrefix s' prefix'
  | String _ _, EmptyString => false
  end.

(** [strings.Index s substr]: the byte offset of the first occurrence of
    [substr] in [s]; [None] stands for -1. *)
Fixpoint Index (s substr : string) : option nat :=
  if HasPrefix s substr then Some 0%nat
  else match s with
       | EmptyString => None
       | String _ s' => option_map S (Index s' substr)
       end.

(** [strings.Contains s substr] is [Index(s, substr) >= 0]. *)
Definition Contains (s substr : string) : bool :=
  match Index s substr with
  | Some _ => true
  | None => false
  end.

(** The replacement loop of [strings.Replace] for a non-empty [old] and
    [n < 0]: copy up to the next occurrence found by [Index], write
    [new], skip [old], and copy the rest when no occurrence is left. The
    number of rounds Go computes beforehand with [Count] is the number of
    times [Index] succeeds here. *)
Fixpoint replaceLoop (fuel : nat) (s old new : string) : string :=
  match fuel with
  | O => s
  | S fuel' =>
    match Index s old with
    | None => s
    | Some j =>
      takeS j s +:+ new
        +:+ replaceLoop fuel' (dropS (j + String.length old) s) old new
    end
  end.

(** [strings.ReplaceAll s old new = Replace(s, old, new, -1)]. With an
    empty [old], [new] is written before the string and after every
    rune. *)
Definition ReplaceAll (s old new : string) : string :=
  if String.eqb old new then s
  else match old with
       | EmptyString =>
         new +:+ concatS (map (fun rb : Z * string => snd rb +:+ new)
                              (utf8.rangeString s))
       | String _ _ => replaceLoop (String.length s) s old new
       end.

(** The loop of [strings.FieldsFunc] over the runes of the string: [cur]
    is the span under construction ([start >= 0]), [None] when there is
    none ([start < 0]). *)
Fixpoint fieldsLoop (f : Z -> bool) (rs : list (Z * string))
    (cur : option string) : list string :=
  match rs with
  | [] => match cur with
          | Some span => [span]
          | None => []
          end
  | (r, bytes) :: rs' =>
    if f r then
      match cur with
      | Some span => span :: fieldsLoop f rs' None
      | None => fieldsLoop f rs' None
      end
    else
      match cur with
      | Some span => fieldsLoop f rs' (Some (span +:+ bytes))
      | None => fieldsLoop f rs' (Some bytes)
      end
  end.

Definition FieldsFunc (s : string) (f : Z -> bool) : list string :=
  fieldsLoop f (utf8.rangeString s) None.

(** [strings.Fields]: split around runs of white space as defined by
    [unicode.IsSpace]. (Go's ASCII fast path computes the same fields
    without decoding.) *)
Definition Fields (s : string) : list string :=
  FieldsFunc s unicode.IsSpace.

(** [indexFunc s f truth]: offset of the first rune [r] with
    [f r = truth]. *)
Fixpoint indexFuncLoop (f : Z -> bool) (truth : bool)
    (rs : list (Z * string)) (i : nat) : option nat :=
  match rs with
  | [] => None
  | (r, bytes) :: rs' =>
    if Bool.eqb (f r) truth then Some i
    else indexFuncLoop f truth rs' (i + String.length bytes)%nat
  end.

Definition indexFunc (s : string) (f : Z -> bool) (truth : bool)
  : option nat :=
  indexFuncLoop f truth (utf8.rangeString s) 0%nat.

(** [lastIndexFunc s f truth]: offset of the last rune [r] with
    [f r = truth], decoding backwards from the end. *)
Fixpoint lastIndexFuncLoop (fuel : nat) (s : string) (f : Z -> bool)
    (truth : bool) (i : nat) : option nat :=
  match fuel with
  | O => None
  | S fuel' =>
    if (i =? 0)%nat then None
    else
      let '(r, size) := utf8.DecodeLastRuneInString (takeS i s) in
      let i' := (i - size)%nat in
      if Bool.eqb (f r) truth then Some i'
      else lastIndexFuncLoop fuel' s f truth i'
  end.

Definition lastIndexFunc (s : string) (f : Z -> bool) (truth : bool)
  : option nat :=
  lastIndexFuncLoop (String.length s) s f truth (String.length s).

Definition TrimLeftFunc (s : string) (f : Z -> bool) : string :=
  match indexFunc s f false with
  | None => EmptyString
  | Some i => dropS i s
  end.

Definition TrimRightFunc (s : string) (f : Z -> bool) : string :=
  match lastIndexFunc s f false with
  | Some i =>
    if utf8.RuneSelf <=? byteAt s i then
      takeS (i + snd (utf8.DecodeRuneInString (dropS i s))) s
    else takeS (i + 1) s
  | None => EmptyString
  end.

Definition TrimFunc (s : string) (f : Z -> bool) : string :=
  TrimRightFunc (TrimLeftFunc s f) f.

(** [strings.TrimSpace]: leading and trailing white space removed, as
    defined by Unicode. (Go's ASCII fast path trims the same bytes.) *)
Definition TrimSpace (s : string) : string :=
  TrimFunc s unicode.IsSpace.

End strings.

(** ** software.go *)

(** Bytes that a Rocq string literal cannot spell directly. *)
Definition nl : string := String "010"%char EmptyString.
Definition cr : string := String "013"%char EmptyString.
Definition dquote : string := String "034"%char EmptyString.

(** [Software] represents a software package to be installed. *)
Record Software : Type := mkSoftware {
  Name : string;
  Description : string;
  Command : string
}.

(** Common software packages for Ubuntu. *)
Definition commonSoftware : list Software := [
  mkSoftware "nginx" "Web server" "apt install -y nginx";
  mkSoftware "python3" "Python programming language" "apt install -y python3";
  mkSoftware "nodejs" "JavaScript runtime" "apt install -y nodejs npm";
  mkSoftware "git" "Version control system" "apt install -y git";
  mkSoftware "docker" "Container platform" "apt install -y docker.io";
  mkSoftware "postgresql" "SQL database"
             "apt install -y postgresql postgresql-contrib";
  mkSoftware "mysql" "MySQL database"
             "apt install -y mysql-server mysql-client";
  mkSoftware "vim" "Text editor" "apt install -y vim";
  mkSoftware "curl" "Command line tool for transferring data"
             "apt install -y curl";
  mkSoftware "wget" "Command line tool for retrieving files"
             "apt install -y wget"
].

(** *** sanitizePackageName *)

Definition disallowed : list string :=
  [";"; "&&"; "||"; "|"; ">"; "<"; "$"; "`"; dquote; "'"; "("; ")";
   "{"; "}"; "["; "]"; nl; cr].

(** [for _, char := range disallowed { result = ReplaceAll(result, char, "") }] *)
Definition removeDisallowed (name : string) : string :=
  fold_left (fun result char => strings.ReplaceAll result char "")
            disallowed name.

Definition sanitizePackageName (name : string) : string :=
  let result := removeDisallowed name in
  match strings.Fields result with
  | part :: _ => part
  | [] => ""
  end.

(** *** The request, the server registry and the response *)

(** Modelled from the spec: the type of the entries of [ipMap] (the
    spec's ServerProfile), which is declared in another file of the
    package. These are the two fields that [software.go] reads, both
    strings: the privilege user and the privilege secret. *)
Record Server : Type := mkServer {
  RootUsername : string;
  RootPassword : string
}.

(** What [r.ParseForm()] returns: an error, or the form values in the
    order they were sent. *)
Inductive ParseResult : Type :=
| ParseErr (err : string)
| ParseOK (form : list (string * string)).

Record Request : Type := mkRequest {
  Method : string;
  ParseForm : ParseResult
}.

(** [r.FormValue key]: the first value sent for [key], the empty string
    if none. *)
Fixpoint FormValue (form : list (string * string)) (key : string) : string :=
  match form with
  | [] => ""
  | (k, v) :: form' => if String.eqb k key then v else FormValue form' key
  end.

Definition MethodPost : string := "POST".
Definition StatusBadRequest : Z := 400.
Definition StatusNotFound : Z := 404.
Definition StatusMethodNotAllowed : Z := 405.

(** What the handler writes: [http.Error(w, msg, code)], or the template
    executed on its data. *)
Inductive Response : Type :=
| HttpError (msg : string) (code : Z)
| Page (template : string) (data : string).

(** One call of [runRemoteCommand(ip, user, password, command)]. *)
Record RemoteCall : Type := mkCall {
  callIP : string;
  callUser : string;
  callPassword : string;
  callCommand : string
}.

(** *** installSoftwareHandler *)

(** Lines 78-84: the first catalog entry whose name is [softwareName]. *)
Fixpoint findSoftware (catalog : list Software) (softwareName : string)
  : option Software :=
  match catalog with
  | [] => None
  | s :: rest =>
    if String.eqb (Name s) softwareName then Some s
    else findSoftware rest softwareName
  end.

(** Lines 70-104: the install command selected by the form, or the error
    response. *)
Definition selectInstallCommand (form : list (string * string))
  : Response + string :=
  let softwareType := FormValue form "software_type" in
  if String.eqb softwareType "common" then
    let softwareName := FormValue form "common_software" in
    match findSoftware commonSoftware softwareName with
    | Some s => inr (Command s)
    | None => inl (HttpError "Selected software not found" StatusBadRequest)
    end
  else if String.eqb softwareType "custom" then
    let customSoftware := strings.TrimSpace (FormValue form "custom_software") in
    if String.eqb customSoftware "" then
      inl (HttpError "Custom software name is required" StatusBadRequest)
    else
      let customSoftware := sanitizePackageName customSoftware in
      inr ("apt install -y " +:+ customSoftware)
  else inl (HttpError "Invalid software type" StatusBadRequest).

(** Lines 106-124: the script written to the builder, and [installCommand]
    as the branch leaves it. *)
Definition buildScript (server : Server) (installCommand : string)
  : string * string :=
  if String.eqb (RootUsername server) "root" then
    let installCommand :=
      strings.ReplaceAll installCommand "apt install -y" "apk add" in
    ("apk update && " +:+ installCommand, installCommand)
  else
    let installCommand :=
      strings.ReplaceAll installCommand "apk add" "apt install -y" in
    ("echo '" +:+ RootPassword server
       +:+ "' | sudo -S apt update && echo '" +:+ RootPassword server
       +:+ "' | sudo -S " +:+ installCommand,
     installCommand).

(** Lines 129-141: the log. [err] is [Some msg] when the remote call
    returned an error whose [Error()] is [msg]. *)
Definition renderLog (serverIP installCommand output : string)
    (err : option string) : string :=
  "📦 Software Installation Log" +:+ nl +:+ nl
  +:+ ("Server: " +:+ serverIP +:+ nl)
  +:+ ("Command: " +:+ installCommand +:+ nl +:+ nl)
  +:+ match err with
      | Some e => "❌ Installation failed: " +:+ e +:+ nl +:+ nl
      | None => "✅ Installation command executed successfully" +:+ nl +:+ nl
      end
  +:+ ("Output:" +:+ nl +:+ output).

Section Handler.

(** The server registry and the remote-execution primitive are defined in
    other files of the package. *)
Variable ipMap : gmap string Server.
Variable runRemoteCommand :
  string -> string -> string -> string -> string * option string.

(** The handler returns its response together with the remote calls it
    made, in order. *)
Definition installSoftwareHandler (r : Request)
  : Response * list RemoteCall :=
  if negb (String.eqb (Method r) MethodPost) then
    (HttpError "Method not allowed" StatusMethodNotAllowed, [])
  else
  match ParseForm r with
  | ParseErr err =>
    (HttpError ("Error parsing form: " +:+ err) StatusBadRequest, [])
  | ParseOK form =>
    let serverIP := FormValue form "server_ip" in
    if String.eqb serverIP "" then
      (HttpError "Server IP is required" StatusBadRequest, [])
    else
    match ipMap !! serverIP with
    | None => (HttpError "Server not found" StatusNotFound, [])
    | Some server =>
      match selectInstallCommand form with
      | inl response => (response, [])
      | inr installCommand =>
        let '(script, installCommand) := buildScript server installCommand in
        let '(output, err) :=
          runRemoteCommand serverIP (RootUsername server)
                           (RootPassword server) script in
        (Page "templates/logs.html"
              (renderLog serverIP installCommand output err),
         [mkCall serverIP (RootUsername server) (RootPassword server) script])
      end
    end
  end.

End Handler.

(** A request that selects the catalog entry [key] for the server [ip]. *)
Definition catalogRequest (r : Request) (ip key : string) : Prop :=
  Method r = MethodPost /\
  exists form, ParseForm r = ParseOK form /\
    FormValue form "server_ip" = ip /\
    FormValue form "software_type" = "common" /\
    FormValue form "common_software" = key.

(** A request that asks for the free-text package [name] on the server
    [ip]. *)
Definition customRequest (r : Request) (ip name : string) : Prop :=
  Method r = MethodPost /\
  exists form, ParseForm r = ParseOK form /\
    FormValue form "server_ip" = ip /\
    FormValue form "software_type" = "custom" /\
    FormValue form "custom_software" = name.

(** The names of the catalog, in order. *)
Definition catalogNames : list string :=
  ["nginx"; "python3"; "nodejs"; "git"; "docker"; "postgresql"; "mysql";
   "vim"; "curl"; "wget"].

(** The ways a request fails validation or lookup. *)
Inductive Rejected (ipMap : gmap string Server) (r : Request) : Prop :=
| rejected_method :
    Method r <> MethodPost -> Rejected ipMap r
| rejected_form err :
    ParseForm r = ParseErr err -> Rejected ipMap r
| rejected_empty_address form :
    ParseForm r = ParseOK form ->
    FormValue form "server_ip" = "" -> Rejected ipMap r
| rejected_unknown_address form :
    ParseForm r = ParseOK form ->
    ipMap !! FormValue form "server_ip" = None -> Rejected ipMap r
| rejected_unknown_key form :
    ParseForm r = ParseOK form ->
    FormValue form "software_type" = "common" ->
    ~ In (FormValue form "common_software") catalogNames -> Rejected ipMap r
| rejected_empty_custom form :
    ParseForm r = ParseOK form ->
    FormValue form "software_type" = "custom" ->
    strings.TrimSpace (FormValue form "custom_software") = "" ->
    Rejected ipMap r
| rejected_mode form :
    ParseForm r = ParseOK form ->
    FormValue form "software_type" <> "common" ->
    FormValue form "software_type" <> "custom" -> Rejected ipMap r.

(** [hasByte c s]: the byte [c] occurs in [s]. *)
Fixpoint hasByte (c : ascii) (s : string) : bool :=
  match s with
  | EmptyString => false
  | String x s' => Ascii.eqb x c || hasByte c s'
  end.

(** The sudo branch of [buildScript] as it would read without the
    rewriting of "apk add" (line 122); the root branch is unchanged. *)
Definition buildScriptWithoutNormalization (server : Server)
    (installCommand : string) : string * string :=
  if String.eqb (RootUsername server) "root" then
    buildScript server installCommand
  else
    ("echo '" +:+ RootPassword server
       +:+ "' | sudo -S apt update && echo '" +:+ RootPassword server
       +:+ "' | sudo -S " +:+ installCommand,
     installCommand).

(** *** Sample data for the examples *)

(** A registry with one root server and one sudo server. *)
Definition sampleServers : gmap string Server :=
  {[ "10.0.0.1" := mkServer "root" "secret";
     "10.0.0.2" := mkServer "deploy" "pw" ]}.

(** A transport that succeeds and one that fails. *)
Definition remoteOK (ip user password command : string)
  : string * option string :=
  ("done", None).

Definition remoteDown (ip user password command : string)
  : string * option string :=
  ("partial output", Some "connection refused").

Definition postForm (ip type field value : string) : Request :=
  mkRequest "POST"
    (ParseOK [("server_ip", ip); ("software_type", type); (field, value)]).

(** The registry after the root password of 10.0.0.1 was changed. *)
Definition sampleServersRotated : gmap string Server :=
  {[ "10.0.0.1" := mkServer "root" "rotated";
     "10.0.0.2" := mkServer "deploy" "pw" ]}.

(** *** Byte classes used to state what the sanitizer keeps and drops *)

(** [allBytes P s]: every byte of [s] satisfies [P]. *)
Fixpoint allBytes (P : ascii -> bool) (s : string) : bool :=
  match s with
  | EmptyString => true
  | String c s' => P c && allBytes P s'
  end.

(** The ASCII white space bytes: tab, line feed, vertical tab, form feed,
    carriage return and space. *)
Definition asciiSpace (c : ascii) : bool :=
  (byteVal c <? utf8.RuneSelf) && unicode.IsSpace (byteVal c).

(** The byte [c] is, on its own, one of the tokens of [disallowed]. *)
Definition disallowedByte (c : ascii) : bool :=
  existsb (String.eqb (String c EmptyString)) disallowed.

(** The result of [strings.Fields(result)] as line 159-164 reads it: the
    first part, or the empty string. *)
Definition firstField (parts : list string) : string :=
  match parts with
  | part :: _ => part
  | [] => EmptyString
  end.

(** A tab byte, for the examples. *)
Definition tab : string := String "009"%char EmptyString.

(** * Properties *)

(** ** Running the handler *)

Section HandlerFacts.

Variable ipMap : gmap string Server.
Variable runRemoteCommand :
  string -> string -> string -> string -> string * option string.

Local Abbreviation handler := (installSoftwareHandler ipMap runRemoteCommand).

(** A request that passes every check runs [buildScript]'s script once and
    renders the log. *)
Lemma handler_executes (r : Request) form srv cmd :
  Method r = MethodPost ->
  ParseForm r = ParseOK form ->
  FormValue form "server_ip" <> "" ->
  ipMap !! FormValue form "server_ip" = Some srv ->
  selectInstallCommand form = inr cmd ->
  let ip := FormValue form "server_ip" in
  let script := fst (buildScript srv cmd) in
  let res := runRemoteCommand ip (RootUsername srv) (RootPassword srv) script in
  handler r =
    (Page "templates/logs.html"
          (renderLog ip (snd (buildScript srv cmd)) (fst res) (snd res)),
     [mkCall ip (RootUsername srv) (RootPassword srv) script]).
Proof.
  intros Hm Hf Hip Hsrv Hsel. unfold installSoftwareHandler.
  rewrite Hm, Hf. cbn [negb]. rewrite String.eqb_refl. cbn [negb].
  apply String.eqb_neq in Hip. rewrite Hip, Hsrv, Hsel.
  destruct (buildScript srv cmd) as [script cmd'].
  cbn [fst snd].
  destruct (runRemoteCommand _ _ _ script) as [output err]. reflexivity.
Qed.

(** Conversely, a remote call is only made by a request that passed every
    check. *)
Lemma handler_call_inv (r : Request) c :
  In c (snd (handler r)) ->
  Method r = MethodPost /\
  exists form srv cmd,
    ParseForm r = ParseOK form /\
    FormValue form "server_ip" <> "" /\
    ipMap !! FormValue form "server_ip" = Some srv /\
    selectInstallCommand form = inr cmd.
Proof.
  unfold installSoftwareHandler.
  destruct (String.eqb_spec (Method r) MethodPost) as [Hm|Hm]; cbn [negb];
    [|intros []].
  destruct (ParseForm r) as [e|form]; [intros []|].
  destruct (String.eqb_spec (FormValue form "server_ip") "") as [Hip|Hip];
    [intros []|].
  destruct (ipMap !! FormValue form "server_ip") as [srv|] eqn:Hsrv;
    [|intros []].
  destruct (selectInstallCommand form) as [resp|cmd] eqn:Hsel; [intros []|].
  intros _. split; [exact Hm|]. exists form, srv, cmd. auto.
Qed.

End HandlerFacts.

(** ** The catalog *)

(** [findSoftware] returns the first entry with the requested name, over
    any catalog. *)
Lemma findSoftware_first (catalog : list Software) (key : string) (s : Software) :
  findSoftware catalog key = Some s <->
  exists before after,
    catalog = before ++ s :: after /\ Name s = key /\
    Forall (fun x => Name x <> key) before.
Proof.
  induction catalog as [|x rest IH]; cbn [findSoftware].
  - split; [discriminate|]. intros (before & after & Heq & _).
    destruct before; discriminate.
  - destruct (String.eqb_spec (Name x) key) as [Hx|Hx].
    + split.
      * intros [= <-]. exists [], rest. split; [reflexivity|]. split; [exact Hx|].
        constructor.
      * intros (before & after & Heq & Hs & Hbefore).
        destruct before as [|y before]; cbn in Heq.
        -- injection Heq as ->. reflexivity.
        -- injection Heq as -> _. inversion Hbefore; subst. contradiction.
    + rewrite IH. split.
      * intros (before & after & -> & Hs & Hbefore).
        exists (x :: before), after. split; [reflexivity|]. split; [exact Hs|].
        constructor; assumption.
      * intros (before & after & Heq & Hs & Hbefore).
        destruct before as [|y before]; cbn in Heq.
        -- injection Heq as ->. subst. contradiction.
        -- injection Heq as -> ->. exists before, after.
           split; [reflexivity|]. split; [exact Hs|].
           inversion Hbefore; assumption.
Qed.

(** [findSoftware] finds nothing exactly when no entry has the requested
    name. *)
Lemma findSoftware_None (catalog : list Software) (key : string) :
  findSoftware catalog key = None <-> ~ In key (map Name catalog).
Proof.
  induction catalog as [|x rest IH]; cbn [findSoftware map In].
  - tauto.
  - destruct (String.eqb_spec (Name x) key) as [Hx|Hx].
    + split; [discriminate|]. intros H. exfalso. apply H. left. exact Hx.
    + rewrite IH. tauto.
Qed.

(** C6. Catalog resolution walks the fixed ten-entry catalog (nginx,
    python3, nodejs, git, docker, postgresql, mysql, vim, curl, wget) and
    returns the first entry whose name is exactly the selector; a selector
    equal to none of the ten names finds nothing, and the handler answers
    such a catalog request with "Selected software not found" without
    composing any command. *)
Theorem C6_catalog_lookup_exact (key : string) :
  map Name commonSoftware = catalogNames /\
  (forall s, findSoftware commonSoftware key = Some s <->
     exists before after,
       commonSoftware = before ++ s :: after /\ Name s = key /\
       Forall (fun x => Name x <> key) before) /\
  (findSoftware commonSoftware key = None <-> ~ In key catalogNames) /\
  (forall form,
     FormValue form "software_type" = "common" /\
     FormValue form "common_software" = key /\
     ~ In key catalogNames ->
     selectInstallCommand form =
       inl (HttpError "Selected software not found" StatusBadRequest)).
Proof.
  split; [reflexivity|]. split; [intros s; apply findSoftware_first|].
  split; [apply (findSoftware_None commonSoftware)|].
  intros form (Hty & Hkey & Hnot). unfold selectInstallCommand.
  rewrite Hty, Hkey. cbn [String.eqb Ascii.eqb Bool.eqb andb].
  apply (findSoftware_None commonSoftware) in Hnot. rewrite Hnot. reflexivity.
Qed.

(** The lookup is case-sensitive and takes no prefix or superstring of a
    name. *)
Example findSoftware_no_fuzzy_match :
  findSoftware commonSoftware "Nginx" = None /\
  findSoftware commonSoftware "ngin" = None /\
  findSoftware commonSoftware "nginx " = None /\
  findSoftware commonSoftware "" = None.
Proof. repeat split. Qed.

(** C7. For every catalog entry, rewriting "apt install -y" to "apk add"
    in its install verb and then "apk add" back to "apt install -y" gives
    the install verb again. *)
Theorem C7_catalog_verb_round_trip :
  Forall (fun s =>
            strings.ReplaceAll
              (strings.ReplaceAll (Command s) "apt install -y" "apk add")
              "apk add" "apt install -y" = Command s)
         commonSoftware.
Proof. unfold commonSoftware. repeat constructor. Qed.

(** ** Composing the script *)

Lemma selectInstallCommand_common (form : list (string * string)) (s : Software) :
  FormValue form "software_type" = "common" ->
  findSoftware commonSoftware (FormValue form "common_software") = Some s ->
  selectInstallCommand form = inr (Command s).
Proof.
  intros Hty Hfind. unfold selectInstallCommand. rewrite Hty, Hfind.
  reflexivity.
Qed.

(** On a server whose user is "root" the script does not mention the
    password. *)
Lemma buildScript_root (srv : Server) (cmd : string) :
  RootUsername srv = "root" ->
  buildScript srv cmd =
    ("apk update && " +:+ strings.ReplaceAll cmd "apt install -y" "apk add",
     strings.ReplaceAll cmd "apt install -y" "apk add").
Proof. intros Hu. unfold buildScript. rewrite Hu. reflexivity. Qed.

Lemma buildScript_sudo (srv : Server) (cmd : string) :
  RootUsername srv <> "root" ->
  buildScript srv cmd =
    ("echo '" +:+ RootPassword srv
       +:+ "' | sudo -S apt update && echo '" +:+ RootPassword srv
       +:+ "' | sudo -S " +:+ strings.ReplaceAll cmd "apk add" "apt install -y",
     strings.ReplaceAll cmd "apk add" "apt install -y").
Proof.
  intros Hu. unfold buildScript. apply String.eqb_neq in Hu. rewrite Hu.
  reflexivity.
Qed.

(** C4. On a server whose user is not "root" and whose password is "pw",
    a request for the catalog entry "git" sends exactly
    "echo 'pw' | sudo -S apt update && echo 'pw' | sudo -S apt install -y git"
    to the remote transport. *)
Theorem C4_sudo_git_command
    (ipMap : gmap string Server)
    (runRemoteCommand : string -> string -> string -> string -> string * option string)
    (r : Request) (ip : string) (srv : Server) :
  catalogRequest r ip "git" ->
  ip <> "" ->
  ipMap !! ip = Some srv ->
  RootUsername srv <> "root" ->
  RootPassword srv = "pw" ->
  map callCommand (snd (installSoftwareHandler ipMap runRemoteCommand r)) =
    ["echo 'pw' | sudo -S apt update && echo 'pw' | sudo -S apt install -y git"].
Proof.
  intros (Hm & form & Hf & Hip & Hty & Hkey) Hne Hsrv Huser Hpw. subst ip.
  rewrite (handler_executes ipMap runRemoteCommand r form srv
             "apt install -y git" Hm Hf Hne Hsrv).
  - cbn [snd map callCommand]. rewrite (buildScript_sudo _ _ Huser), Hpw.
    reflexivity.
  - apply (selectInstallCommand_common form
             (mkSoftware "git" "Version control system" "apt install -y git"));
      [exact Hty|]. rewrite Hkey. reflexivity.
Qed.

(** C5. On a server whose user is "root", a request for the catalog entry
    "nginx" sends exactly "apk update && apk add nginx" to the remote
    transport: the update step comes first and "apt install -y" has
    become "apk add". *)
Theorem C5_root_nginx_command
    (ipMap : gmap string Server)
    (runRemoteCommand : string -> string -> string -> string -> string * option string)
    (r : Request) (ip : string) (srv : Server) :
  catalogRequest r ip "nginx" ->
  ip <> "" ->
  ipMap !! ip = Some srv ->
  RootUsername srv = "root" ->
  map callCommand (snd (installSoftwareHandler ipMap runRemoteCommand r)) =
    ["apk update && apk add nginx"] /\
  strings.ReplaceAll "apt install -y nginx" "apt install -y" "apk add"
    = "apk add nginx".
Proof.
  intros (Hm & form & Hf & Hip & Hty & Hkey) Hne Hsrv Huser. subst ip.
  split; [|reflexivity].
  rewrite (handler_executes ipMap runRemoteCommand r form srv
             "apt install -y nginx" Hm Hf Hne Hsrv).
  - cbn [snd map callCommand]. rewrite (buildScript_root _ _ Huser).
    reflexivity.
  - apply (selectInstallCommand_common form
             (mkSoftware "nginx" "Web server" "apt install -y nginx"));
      [exact Hty|]. rewrite Hkey. reflexivity.
Qed.

(** C10. For a server whose user is "root" the command text does not
    depend on the root password: under two registries that give the
    requested address root profiles (with whatever passwords), the same
    request sends the same command text. *)
Theorem C10_root_command_ignores_password
    (ipMap1 ipMap2 : gmap string Server)
    (run1 run2 : string -> string -> string -> string -> string * option string)
    (r : Request) (form : list (string * string)) (srv1 srv2 : Server) :
  ParseForm r = ParseOK form ->
  ipMap1 !! FormValue form "server_ip" = Some srv1 ->
  ipMap2 !! FormValue form "server_ip" = Some srv2 ->
  RootUsername srv1 = "root" ->
  RootUsername srv2 = "root" ->
  map callCommand (snd (installSoftwareHandler ipMap1 run1 r)) =
  map callCommand (snd (installSoftwareHandler ipMap2 run2 r)).
Proof.
  intros Hf H1 H2 Hu1 Hu2. unfold installSoftwareHandler.
  destruct (negb (String.eqb (Method r) MethodPost)); [reflexivity|].
  rewrite Hf.
  destruct (String.eqb (FormValue form "server_ip") ""); [reflexivity|].
  rewrite H1, H2.
  destruct (selectInstallCommand form) as [resp|cmd]; [reflexivity|].
  rewrite (buildScript_root srv1 cmd Hu1), (buildScript_root srv2 cmd Hu2).
  destruct (run1 _ _ _ _), (run2 _ _ _ _). reflexivity.
Qed.

(** ** Strings *)

Lemma app_cons (c : ascii) (s t : string) :
  String c s +:+ t = String c (s +:+ t).
Proof. reflexivity. Qed.

Lemma app_empty_l (s : string) : "" +:+ s = s.
Proof. reflexivity. Qed.

Lemma app_empty_r (s : string) : s +:+ "" = s.
Proof. induction s as [|c s IH]; [reflexivity|]. rewrite app_cons, IH. reflexivity. Qed.

Lemma app_assoc_S (s t u : string) : (s +:+ t) +:+ u = s +:+ (t +:+ u).
Proof.
  induction s as [|c s IH]; [reflexivity|]. rewrite !app_cons, IH. reflexivity.
Qed.

(** ** Rejected requests and failed executions *)

Section Rejection.

Variable ipMap : gmap string Server.
Variable runRemoteCommand :
  string -> string -> string -> string -> string * option string.

Local Abbreviation handler := (installSoftwareHandler ipMap runRemoteCommand).

(** C8. A request that fails validation or lookup (method other than POST,
    unparsable form, empty or unknown server address, unknown catalog key,
    empty custom name, unrecognised mode) gets an error response and no
    remote call is made. When the remote call itself fails, the handler
    still renders the log page: the failure marker with the error text,
    followed by the captured output. *)
Theorem C8_rejections_and_captured_failures (r : Request) :
  (Rejected ipMap r ->
   exists msg code, handler r = (HttpError msg code, [])) /\
  (forall form srv cmd output e,
     Method r = MethodPost /\
     ParseForm r = ParseOK form /\
     FormValue form "server_ip" <> "" /\
     ipMap !! FormValue form "server_ip" = Some srv /\
     selectInstallCommand form = inr cmd /\
     runRemoteCommand (FormValue form "server_ip") (RootUsername srv)
       (RootPassword srv) (fst (buildScript srv cmd)) = (output, Some e) ->
     exists before,
       handler r =
         (Page "templates/logs.html"
               (before +:+ "❌ Installation failed: " +:+ e +:+ nl +:+ nl
                  +:+ "Output:" +:+ nl +:+ output),
          [mkCall (FormValue form "server_ip") (RootUsername srv)
                  (RootPassword srv) (fst (buildScript srv cmd))])).
Proof.
  split.
  - intros Hrej. unfold installSoftwareHandler.
    destruct (String.eqb_spec (Method r) MethodPost) as [Hm|Hm]; cbn [negb];
      [|eauto].
    destruct (ParseForm r) as [err|form] eqn:Hf; [eauto|].
    destruct (String.eqb_spec (FormValue form "server_ip") "") as [Hip|Hip];
      [eauto|].
    destruct (ipMap !! FormValue form "server_ip") as [srv|] eqn:Hsrv; [|eauto].
    assert (exists msg code,
               selectInstallCommand form = inl (HttpError msg code))
      as (msg & code & ->); [|eauto].
    unfold selectInstallCommand.
    destruct Hrej as [Hm'|e He|f Hf' Hip'|f Hf' Hsrv'|f Hf' Hty Hkey
                     |f Hf' Hty Hname|f Hf' Hty1 Hty2];
      try contradiction; try congruence;
      rewrite Hf in Hf'; injection Hf' as <-; try contradiction;
      try congruence.
    + rewrite Hty. cbn [String.eqb Ascii.eqb Bool.eqb andb].
      apply (findSoftware_None commonSoftware) in Hkey. rewrite Hkey. eauto.
    + rewrite Hty, Hname. cbn [String.eqb Ascii.eqb Bool.eqb andb]. eauto.
    + apply String.eqb_neq in Hty1, Hty2. rewrite Hty1, Hty2. eauto.
  - intros form srv cmd output e (Hm & Hf & Hip & Hsrv & Hsel & Hrun).
    rewrite (handler_executes ipMap runRemoteCommand r form srv cmd
               Hm Hf Hip Hsrv Hsel).
    cbn zeta. rewrite Hrun. cbn [fst snd]. unfold renderLog.
    eexists. f_equal. f_equal.
    rewrite <- !app_assoc_S. reflexivity.
Qed.

End Rejection.

(** ** The log *)

Section Log.

Variable ipMap : gmap string Server.
Variable runRemoteCommand :
  string -> string -> string -> string -> string * option string.

Local Abbreviation handler := (installSoftwareHandler ipMap runRemoteCommand).

(** C3, as the code has it. For every executed request the log is, in order: the
    fixed header line, the server address, the install command as the
    privilege branch left it, a success or failure marker, and the remote
    output verbatim at the end. The install command shown is the final
    segment of the command text passed to the transport: that text is the
    wrapper ("apk update && " for root, the password-piped sudo prefix
    otherwise) followed by it. *)
Theorem C3_log_layout (r : Request) (c : RemoteCall) :
  In c (snd (handler r)) ->
  exists installCommand output err,
    callCommand c =
      (if String.eqb (callUser c) "root" then "apk update && "
       else "echo '" +:+ callPassword c
              +:+ "' | sudo -S apt update && echo '" +:+ callPassword c
              +:+ "' | sudo -S ")
      +:+ installCommand /\
    runRemoteCommand (callIP c) (callUser c) (callPassword c) (callCommand c)
      = (output, err) /\
    handler r =
      (Page "templates/logs.html"
         ("📦 Software Installation Log" +:+ nl +:+ nl
          +:+ "Server: " +:+ callIP c +:+ nl
          +:+ "Command: " +:+ installCommand +:+ nl +:+ nl
          +:+ match err with
              | Some e => "❌ Installation failed: " +:+ e
              | None => "✅ Installation command executed successfully"
              end +:+ nl +:+ nl
          +:+ "Output:" +:+ nl +:+ output),
       [c]).
Proof.
  intros Hc.
  destruct (handler_call_inv ipMap runRemoteCommand r c Hc)
    as (Hm & form & srv & cmd & Hf & Hip & Hsrv & Hsel).
  pose proof (handler_executes ipMap runRemoteCommand r form srv cmd
                Hm Hf Hip Hsrv Hsel) as Hrun.
  cbn zeta in Hrun. rewrite Hrun in Hc. destruct Hc as [<-|[]].
  cbn [callIP callUser callPassword callCommand].
  exists (snd (buildScript srv cmd)).
  destruct (runRemoteCommand _ _ _ _) as [output err] eqn:Hres.
  exists output, err. split; [|split; [reflexivity|]].
  - unfold buildScript.
    destruct (String.eqb (RootUsername srv) "root"); cbn [fst snd];
      [reflexivity|].
    rewrite !app_assoc_S. reflexivity.
  - rewrite Hrun. cbn [fst snd]. unfold renderLog. f_equal. f_equal.
    destruct err as [e|]; rewrite !app_assoc_S; reflexivity.
Qed.

End Log.

(** C3 as stated does not hold: the log of an executed request need not
    contain the command text that went to the transport. For the catalog entry
    "nginx" on a root server the transport receives
    "apk update && apk add nginx" and the log shows "apk add nginx". *)
Lemma C3_log_omits_transport_command :
  exists log,
    installSoftwareHandler sampleServers remoteOK
      (postForm "10.0.0.1" "common" "common_software" "nginx")
    = (Page "templates/logs.html" log,
       [mkCall "10.0.0.1" "root" "secret" "apk update && apk add nginx"]) /\
    strings.Contains log "apk update && apk add nginx" = false /\
    strings.Contains log "Command: apk add nginx" = true.
Proof. eexists. split; [reflexivity|]. split; vm_compute; reflexivity. Qed.

(** On a sudo server the same happens, and the password-carrying wrapper
    stays out of the log. *)
Example log_omits_sudo_wrapper :
  exists log,
    installSoftwareHandler sampleServers remoteOK
      (postForm "10.0.0.2" "common" "common_software" "git")
    = (Page "templates/logs.html" log,
       [mkCall "10.0.0.2" "deploy" "pw"
          "echo 'pw' | sudo -S apt update && echo 'pw' | sudo -S apt install -y git"])
    /\ strings.Contains log "echo 'pw'" = false
    /\ strings.Contains log "Command: apt install -y git" = true.
Proof. eexists. split; [reflexivity|]. split; vm_compute; reflexivity. Qed.

(** ** The sanitizer on concrete inputs *)

Example sanitize_injection : sanitizePackageName "foo; rm -rf /" = "foo".
Proof. vm_compute. reflexivity. Qed.

Example sanitize_blank : sanitizePackageName "   " = "".
Proof. vm_compute. reflexivity. Qed.

(** C1. The claim asks that no disallowed token occurs in the output. The
    single pass in list order removes "&&" before "|": on "x&|&reboot"
    the later removal of "|" joins the two ampersands, and the output
    "x&&reboot" contains the disallowed token "&&", which then reaches the
    command text. *)
Theorem C1_sanitize_leaves_double_ampersand :
  In "&&" disallowed /\
  sanitizePackageName "x&|&reboot" = "x&&reboot" /\
  strings.Contains (sanitizePackageName "x&|&reboot") "&&" = true /\
  map callCommand
    (snd (installSoftwareHandler sampleServers remoteOK
            (postForm "10.0.0.1" "custom" "custom_software" "x&|&reboot")))
  = ["apk update && apk add x&&reboot"].
Proof.
  split; [cbn; tauto|]. repeat split; vm_compute; reflexivity.
Qed.

(** C2. The claim asks that a custom name which sanitizes to the empty
    string is rejected. The emptiness check of the handler runs before the
    sanitizer: the name ";" passes it, sanitizes to the empty string, and
    the remote command is executed with an empty package token. *)
Theorem C2_empty_sanitized_name_is_executed :
  strings.TrimSpace ";" = ";" /\
  sanitizePackageName ";" = "" /\
  installSoftwareHandler sampleServers remoteOK
    (postForm "10.0.0.2" "custom" "custom_software" ";")
  = (Page "templates/logs.html"
       (renderLog "10.0.0.2" "apt install -y " "done" None),
     [mkCall "10.0.0.2" "deploy" "pw"
        "echo 'pw' | sudo -S apt update && echo 'pw' | sudo -S apt install -y "]).
Proof. repeat split; vm_compute; reflexivity. Qed.

(** ** Occurrences of bytes and substrings *)

Lemma hasByte_app (c : ascii) (s t : string) :
  hasByte c (s +:+ t) = hasByte c s || hasByte c t.
Proof.
  induction s as [|x s IH]; [reflexivity|].
  rewrite app_cons. cbn [hasByte]. rewrite IH. apply orb_assoc.
Qed.

Lemma HasPrefix_hasByte (c : ascii) (s sub : string) :
  strings.HasPrefix s sub = true -> hasByte c sub = true -> hasByte c s = true.
Proof.
  revert s. induction sub as [|p sub IH]; intros s; [discriminate 2|].
  destruct s as [|x s]; cbn [strings.HasPrefix hasByte]; [discriminate|].
  intros [Hx Hpre]%andb_prop [Hp|Hc]%orb_prop.
  - apply Ascii.eqb_eq in Hx. subst x. rewrite Hp. reflexivity.
  - rewrite (IH s Hpre Hc). apply orb_true_r.
Qed.

(** A string that lacks one of the bytes of [sub] does not contain
    [sub]. *)
Lemma Index_missing_byte (c : ascii) (s sub : string) :
  hasByte c sub = true -> hasByte c s = false -> strings.Index s sub = None.
Proof.
  intros Hsub. induction s as [|x s IH]; intros Hs.
  - cbn [strings.Index].
    destruct (strings.HasPrefix "" sub) eqn:Hpre; [|reflexivity].
    rewrite (HasPrefix_hasByte c _ _ Hpre Hsub) in Hs. discriminate.
  - cbn [strings.Index].
    destruct (strings.HasPrefix (String x s) sub) eqn:Hpre.
    + rewrite (HasPrefix_hasByte c _ _ Hpre Hsub) in Hs. discriminate.
    + cbn [hasByte] in Hs. apply orb_false_elim in Hs as [_ Hs].
      rewrite (IH Hs). reflexivity.
Qed.

(** Replacing a substring that does not occur changes nothing. *)
Lemma ReplaceAll_absent (s old new : string) :
  strings.Contains s old = false -> strings.ReplaceAll s old new = s.
Proof.
  unfold strings.Contains, strings.ReplaceAll. intros Habs.
  destruct (String.eqb old new); [reflexivity|].
  destruct old as [|o old].
  - destruct s; discriminate.
  - destruct (strings.Index s (String o old)) eqn:Hidx; [discriminate|].
    destruct (String.length s); cbn [strings.replaceLoop];
      [reflexivity|]. rewrite Hidx. reflexivity.
Qed.

(** ** Runes and fields *)

Lemma space_byte (c : ascii) : Ascii.eqb c " " = true -> byteVal c = 32.
Proof. intros H. apply Ascii.eqb_eq in H. subst c. reflexivity. Qed.

Lemma high_byte_not_space (c : ascii) :
  0x80 <= byteVal c -> Ascii.eqb c " " = false.
Proof.
  intros H. destruct (Ascii.eqb c " ") eqn:E; [|reflexivity].
  apply space_byte in E. lia.
Qed.

Lemma first_Lead (b : Z) (sz : nat) (lo hi : Z) :
  utf8.first b = utf8.Lead sz lo hi -> 0x80 <= b /\ 0x80 <= lo.
Proof.
  unfold utf8.first, utf8.locb.
  repeat match goal with
         | |- context [if ?c then _ else _] => destruct c eqn:?
         end; intros [= <- <- <-] || discriminate 1; lia.
Qed.

Lemma first_not_ASCII (b : Z) :
  utf8.first b <> utf8.AS -> 0x80 <= b.
Proof.
  unfold utf8.first. destruct (b <? 128) eqn:E; [congruence|]. lia.
Qed.

Ltac decode_cases :=
  repeat match goal with
         | |- context [if ?c then _ else _] => destruct c eqn:?
         | |- context [match ?t with EmptyString => _ | String _ _ => _ end] =>
           destruct t
         end.

(** The bytes of a rune that is not white space contain no space byte: a
    rune of one byte is that byte (or an invalid one, 0x80 or above), and
    the bytes of a longer rune are all 0x80 or above. *)
Lemma DecodeRune_no_space (s : string) (r : Z) (n : nat) :
  utf8.DecodeRuneInString s = (r, n) ->
  unicode.IsSpace r = false ->
  hasByte " " (takeS n s) = false.
Proof.
  destruct s as [|c0 t0]; cbn [utf8.DecodeRuneInString].
  - intros [= <- <-] _. reflexivity.
  - cbv zeta. destruct (utf8.first (byteVal c0)) as [| |sz lo hi] eqn:Hfirst.
    + intros [= <- <-] Hsp. cbn [takeS hasByte].
      destruct (Ascii.eqb c0 " ") eqn:E; [|reflexivity].
      apply space_byte in E. rewrite E in Hsp. discriminate.
    + intros [= <- <-] _. cbn [takeS hasByte].
      rewrite high_byte_not_space; [reflexivity|].
      apply first_not_ASCII. congruence.
    + destruct (first_Lead _ _ _ _ Hfirst) as [Hb Hlo].
      pose proof (high_byte_not_space c0 Hb) as Hc0.
      unfold utf8.locb, utf8.hicb.
      decode_cases; intros [= <- <-] _; cbn [takeS hasByte]; rewrite ?Hc0;
        try reflexivity;
        repeat match goal with
               | H : (_ <? _) || (_ <? _) = false |- _ =>
                 apply orb_false_elim in H as [? _]
               end;
        rewrite ?high_byte_not_space by lia; reflexivity.
Qed.

Lemma rangeRunes_no_space (fuel : nat) (s : string) :
  Forall (fun rb : Z * string =>
            unicode.IsSpace (fst rb) = false -> hasByte " " (snd rb) = false)
         (utf8.rangeRunes fuel s).
Proof.
  revert s. induction fuel as [|fuel IH]; intros s; cbn [utf8.rangeRunes];
    [constructor|].
  destruct s as [|c s]; [constructor|].
  destruct (utf8.DecodeRuneInString (String c s)) as [r n] eqn:Hdec.
  constructor; [|apply IH].
  cbn [fst snd]. apply (DecodeRune_no_space _ _ _ Hdec).
Qed.

Lemma fieldsLoop_lacks (c : ascii) (rs : list (Z * string)) (cur : option string) :
  Forall (fun rb : Z * string =>
            unicode.IsSpace (fst rb) = false -> hasByte c (snd rb) = false)
         rs ->
  match cur with Some span => hasByte c span = false | None => True end ->
  Forall (fun field => hasByte c field = false)
         (strings.fieldsLoop unicode.IsSpace rs cur).
Proof.
  intros Hrs. revert cur.
  induction Hrs as [|[r bytes] rs Hr Hrs IH]; intros cur Hcur;
    cbn [strings.fieldsLoop].
  - destruct cur; constructor; [assumption|constructor].
  - cbn [fst snd] in Hr. destruct (unicode.IsSpace r) eqn:Hsp.
    + destruct cur; [constructor; [assumption|]|]; apply IH; exact I.
    + destruct cur as [span|]; apply IH.
      * rewrite hasByte_app, Hcur, (Hr eq_refl). reflexivity.
      * apply Hr. reflexivity.
Qed.

(** No field of [strings.Fields] contains a space byte. *)
Lemma Fields_no_space (s : string) :
  Forall (fun field => hasByte " " field = false) (strings.Fields s).
Proof.
  unfold strings.Fields, strings.FieldsFunc.
  apply fieldsLoop_lacks; [apply rangeRunes_no_space|exact I].
Qed.

(** The sanitizer returns a token without a space byte. *)
Lemma sanitizePackageName_no_space (name : string) :
  hasByte " " (sanitizePackageName name) = false.
Proof.
  unfold sanitizePackageName.
  pose proof (Fields_no_space (removeDisallowed name)) as H.
  destruct (strings.Fields (removeDisallowed name)) as [|part parts];
    [reflexivity|].
  inversion H; assumption.
Qed.

(** ** The loops run to completion *)

Lemma takeS_dropS (n : nat) (s : string) : takeS n s +:+ dropS n s = s.
Proof.
  revert s. induction n as [|n IH]; intros [|c s]; cbn [takeS dropS];
    try reflexivity.
  rewrite app_cons, IH. reflexivity.
Qed.

Lemma length_dropS (n : nat) (s : string) :
  String.length (dropS n s) = (String.length s - n)%nat.
Proof.
  revert s. induction n as [|n IH]; intros [|c s]; cbn [dropS String.length];
    try reflexivity.
  apply IH.
Qed.

Lemma length_takeS (n : nat) (s : string) :
  (n <= String.length s)%nat -> String.length (takeS n s) = n.
Proof.
  revert s. induction n as [|n IH]; intros [|c s]; cbn [takeS String.length];
    intros H; try reflexivity; try lia.
  rewrite IH; lia.
Qed.

(** Decoding a non-empty string consumes at least one byte. *)
Lemma DecodeRune_progress (c : ascii) (s : string) :
  (1 <= snd (utf8.DecodeRuneInString (String c s)))%nat.
Proof.
  cbn [utf8.DecodeRuneInString]. cbv zeta.
  destruct (utf8.first (byteVal c)); decode_cases; cbn [snd]; lia.
Qed.

(** With at least [length s] steps, [rangeRunes] covers the whole string:
    the bytes of its runes, put together, are [s]. *)
Lemma rangeRunes_bytes (fuel : nat) (s : string) :
  (String.length s <= fuel)%nat ->
  concatS (map snd (utf8.rangeRunes fuel s)) = s.
Proof.
  revert s. induction fuel as [|fuel IH]; intros s Hlen.
  - destruct s; [reflexivity|cbn [String.length] in Hlen; lia].
  - cbn [utf8.rangeRunes]. destruct s as [|c s]; [reflexivity|].
    pose proof (DecodeRune_progress c s) as Hn.
    destruct (utf8.DecodeRuneInString (String c s)) as [r n].
    cbn [snd] in Hn. cbn [map snd concatS fold_right].
    fold (concatS (map snd (utf8.rangeRunes fuel (dropS n (String c s))))).
    rewrite IH; [apply takeS_dropS|].
    rewrite length_dropS. cbn [String.length] in *. lia.
Qed.

Lemma rangeString_bytes (s : string) :
  concatS (map snd (utf8.rangeString s)) = s.
Proof. apply rangeRunes_bytes. lia. Qed.

(** [replaceLoop] needs no more than [length s] rounds. *)
Lemma replaceLoop_enough (fuel1 fuel2 : nat) (s old new : string) :
  old <> "" ->
  (String.length s <= fuel1)%nat -> (String.length s <= fuel2)%nat ->
  strings.replaceLoop fuel1 s old new = strings.replaceLoop fuel2 s old new.
Proof.
  intros Hold. revert fuel2 s.
  assert (Hempty : forall fuel, strings.replaceLoop fuel "" old new = "").
  { intros [|fuel]; [reflexivity|]. cbn [strings.replaceLoop strings.Index].
    destruct old; [contradiction|reflexivity]. }
  assert (Hlen : (1 <= String.length old)%nat).
  { destruct old; [contradiction|cbn [String.length]; lia]. }
  induction fuel1 as [|fuel1 IH]; intros fuel2 s H1 H2.
  - destruct s; [|cbn [String.length] in H1; lia].
    rewrite !Hempty. reflexivity.
  - destruct fuel2 as [|fuel2].
    + destruct s; [|cbn [String.length] in H2; lia].
      rewrite !Hempty. reflexivity.
    + cbn [strings.replaceLoop]. destruct (strings.Index s old) as [j|];
        [|reflexivity].
      f_equal. f_equal. apply IH; rewrite length_dropS; lia.
Qed.

Lemma scanBack_le (fuel : nat) (s : string) (lim start : Z) :
  utf8.scanBack fuel s lim start <= start.
Proof.
  revert start. induction fuel as [|fuel IH]; intros start;
    cbn [utf8.scanBack]; [lia|].
  destruct (start <? lim); [lia|].
  destruct (utf8.RuneStart _); [lia|].
  specialize (IH (start - 1)). lia.
Qed.

(** Decoding backwards from the end of a non-empty string consumes at
    least one byte. *)
Lemma DecodeLastRune_progress (s : string) :
  s <> "" -> (1 <= snd (utf8.DecodeLastRuneInString s))%nat.
Proof.
  intros Hs. unfold utf8.DecodeLastRuneInString. cbv zeta.
  assert (Hlen : 1 <= Z.of_nat (String.length s)).
  { destruct s; [contradiction|cbn [String.length]; lia]. }
  destruct (Z.of_nat (String.length s) =? 0) eqn:E0; [lia|].
  destruct (_ <? utf8.RuneSelf); [cbn [snd]; lia|].
  pose proof (scanBack_le utf8.UTFMax s
                (Z.max 0 (Z.of_nat (String.length s) - Z.of_nat utf8.UTFMax))
                (Z.of_nat (String.length s) - 1 - 1)) as Hscan.
  destruct (utf8.DecodeRuneInString _) as [r size].
  destruct (_ + Z.of_nat size =? _) eqn:E; cbn [snd]; lia.
Qed.

(** [lastIndexFuncLoop] needs no more than [i] rounds from offset [i]. *)
Lemma lastIndexFuncLoop_enough (fuel1 fuel2 : nat) (s : string)
    (f : Z -> bool) (truth : bool) (i : nat) :
  (i <= String.length s)%nat -> (i <= fuel1)%nat -> (i <= fuel2)%nat ->
  strings.lastIndexFuncLoop fuel1 s f truth i
  = strings.lastIndexFuncLoop fuel2 s f truth i.
Proof.
  revert fuel2 i. induction fuel1 as [|fuel1 IH]; intros fuel2 i Hi H1 H2.
  - assert (i = 0%nat) as -> by lia. destruct fuel2; reflexivity.
  - destruct fuel2 as [|fuel2].
    + assert (i = 0%nat) as -> by lia. reflexivity.
    + cbn [strings.lastIndexFuncLoop].
      destruct (Nat.eqb_spec i 0) as [Hz|Hz]; [reflexivity|].
      assert (Hne : takeS i s <> "").
      { intros Heq. pose proof (length_takeS i s Hi) as Hl.
        rewrite Heq in Hl. cbn [String.length] in Hl. lia. }
      pose proof (DecodeLastRune_progress _ Hne) as Hsize.
      destruct (utf8.DecodeLastRuneInString (takeS i s)) as [r size].
      cbn [snd] in Hsize. destruct (Bool.eqb (f r) truth); [reflexivity|].
      apply IH; lia.
Qed.

(** ** What the sanitizer does remove *)

Lemma hasByte_takeS (c : ascii) (n : nat) (s : string) :
  hasByte c s = false -> hasByte c (takeS n s) = false.
Proof.
  intros H. rewrite <- (takeS_dropS n s), hasByte_app in H.
  apply orb_false_elim in H as [H _]. exact H.
Qed.

Lemma hasByte_dropS (c : ascii) (n : nat) (s : string) :
  hasByte c s = false -> hasByte c (dropS n s) = false.
Proof.
  intros H. rewrite <- (takeS_dropS n s), hasByte_app in H.
  apply orb_false_elim in H as [_ H]. exact H.
Qed.

(** Up to the first occurrence of a byte, the byte does not occur. *)
Lemma Index_byte_Some (c : ascii) (s : string) (j : nat) :
  strings.Index s (String c "") = Some j -> hasByte c (takeS j s) = false.
Proof.
  revert j. induction s as [|x s IH]; intros j; cbn [strings.Index strings.HasPrefix].
  - discriminate.
  - rewrite andb_true_r. destruct (Ascii.eqb x c) eqn:Hx.
    + intros [= <-]. reflexivity.
    + destruct (strings.Index s (String c "")) as [j'|]; [|discriminate].
      intros [= <-]. cbn [takeS hasByte]. rewrite Hx. apply IH. reflexivity.
Qed.

Lemma Index_byte_None (c : ascii) (s : string) :
  strings.Index s (String c "") = None -> hasByte c s = false.
Proof.
  induction s as [|x s IH]; cbn [strings.Index strings.HasPrefix hasByte].
  - reflexivity.
  - rewrite andb_true_r. destruct (Ascii.eqb x c); [discriminate|].
    destruct (strings.Index s (String c "")); [discriminate|].
    intros _. apply IH. reflexivity.
Qed.

(** Removing a one-byte token removes every occurrence of the byte. *)
Lemma replaceLoop_removes_byte (c : ascii) (fuel : nat) (s : string) :
  (String.length s <= fuel)%nat ->
  hasByte c (strings.replaceLoop fuel s (String c "") "") = false.
Proof.
  revert s. induction fuel as [|fuel IH]; intros s Hlen;
    cbn [strings.replaceLoop].
  - destruct s; [reflexivity|cbn [String.length] in Hlen; lia].
  - destruct (strings.Index s (String c "")) as [j|] eqn:Hidx.
    + rewrite !hasByte_app, (Index_byte_Some c s j Hidx). cbn [hasByte orb].
      apply IH. rewrite length_dropS. cbn [String.length]. lia.
    + apply Index_byte_None. exact Hidx.
Qed.

(** Removing a token never brings in a byte that was absent. *)
Lemma replaceLoop_keeps_absent (c : ascii) (fuel : nat) (s old : string) :
  hasByte c s = false ->
  hasByte c (strings.replaceLoop fuel s old "") = false.
Proof.
  revert s. induction fuel as [|fuel IH]; intros s Hs;
    cbn [strings.replaceLoop]; [exact Hs|].
  destruct (strings.Index s old) as [j|]; [|exact Hs].
  rewrite !hasByte_app, (hasByte_takeS c j s Hs). cbn [hasByte orb].
  apply IH, hasByte_dropS, Hs.
Qed.

Lemma ReplaceAll_removes_byte (c : ascii) (s : string) :
  hasByte c (strings.ReplaceAll s (String c "") "") = false.
Proof.
  unfold strings.ReplaceAll. cbn [String.eqb].
  apply replaceLoop_removes_byte. lia.
Qed.

Lemma ReplaceAll_keeps_absent (c : ascii) (s old : string) :
  hasByte c s = false -> hasByte c (strings.ReplaceAll s old "") = false.
Proof.
  intros Hs. unfold strings.ReplaceAll.
  destruct old as [|o old]; [exact Hs|].
  destruct (String.eqb (String o old) ""); [exact Hs|].
  apply replaceLoop_keeps_absent, Hs.
Qed.

Lemma removal_pass_keeps_absent (c : ascii) (tokens : list string) (s : string) :
  hasByte c s = false ->
  hasByte c (fold_left (fun result char => strings.ReplaceAll result char "")
                       tokens s) = false.
Proof.
  revert s. induction tokens as [|t tokens IH]; intros s Hs; cbn [fold_left];
    [exact Hs|].
  apply IH, ReplaceAll_keeps_absent, Hs.
Qed.

(** After the removal pass over a token list, a byte that is one of the
    tokens is gone. *)
Lemma removal_pass_removes_byte (c : ascii) (tokens : list string) (s : string) :
  In (String c "") tokens ->
  hasByte c (fold_left (fun result char => strings.ReplaceAll result char "")
                       tokens s) = false.
Proof.
  revert s. induction tokens as [|t tokens IH]; intros s; cbn [fold_left In];
    [intros []|].
  intros [->|Hin]; [|apply IH, Hin].
  apply removal_pass_keeps_absent, ReplaceAll_removes_byte.
Qed.

Lemma rangeRunes_lacks (c : ascii) (fuel : nat) (s : string) :
  hasByte c s = false ->
  Forall (fun rb : Z * string =>
            unicode.IsSpace (fst rb) = false -> hasByte c (snd rb) = false)
         (utf8.rangeRunes fuel s).
Proof.
  revert s. induction fuel as [|fuel IH]; intros s Hs; cbn [utf8.rangeRunes];
    [constructor|].
  destruct s as [|x s]; [constructor|].
  destruct (utf8.DecodeRuneInString (String x s)) as [r n].
  constructor; [|apply IH, hasByte_dropS, Hs].
  intros _. cbn [snd]. apply hasByte_takeS, Hs.
Qed.

(** A byte removed by the pass is in no field, hence not in the result. *)
Lemma sanitizePackageName_lacks_byte (c : ascii) (name : string) :
  In (String c "") disallowed ->
  hasByte c (sanitizePackageName name) = false.
Proof.
  intros Hin. unfold sanitizePackageName.
  pose proof (removal_pass_removes_byte c disallowed name Hin) as Habs.
  fold (removeDisallowed name) in Habs.
  assert (H : Forall (fun field => hasByte c field = false)
                     (strings.Fields (removeDisallowed name))).
  { apply fieldsLoop_lacks; [apply rangeRunes_lacks, Habs|exact I]. }
  destruct (strings.Fields (removeDisallowed name)); [reflexivity|].
  inversion H; assumption.
Qed.

(** Every disallowed token other than "&&" is absent from the result of
    [sanitizePackageName], whatever the input. *)
Theorem sanitizePackageName_removes_other_tokens (name token : string) :
  In token disallowed -> token <> "&&" ->
  strings.Contains (sanitizePackageName name) token = false.
Proof.
  intros Hin Hne. unfold strings.Contains.
  assert (Hbyte : exists c, hasByte c token = true /\ In (String c "") disallowed).
  { unfold disallowed, dquote, nl, cr in *. cbn [In] in Hin.
    repeat (destruct Hin as [<-|Hin];
            [try contradiction;
             try (eexists; split;
                  [cbn [hasByte]; rewrite Ascii.eqb_refl; reflexivity
                  |cbn [In]; repeat first [left; reflexivity|right]])|]).
    destruct Hin. }
  destruct Hbyte as (c & Hc & Hdis).
  rewrite (Index_missing_byte c _ token Hc
             (sanitizePackageName_lacks_byte c name Hdis)).
  reflexivity.
Qed.

(** ** The sudo branch never sees "apk add" *)

(** A custom install command, "apt install -y " followed by a token
    without a space byte, does not contain "apk add". *)
Lemma custom_command_no_apk (token : string) :
  hasByte " " token = false ->
  strings.Contains ("apt install -y " +:+ token) "apk add" = false.
Proof.
  intros Htok. unfold strings.Contains.
  pose proof (Index_missing_byte " " token "apk add" eq_refl Htok) as Hidx.
  cbv [String.append].
  cbn [strings.Index strings.HasPrefix Ascii.eqb Bool.eqb andb].
  rewrite Hidx. reflexivity.
Qed.

Lemma findSoftware_In (catalog : list Software) (key : string) (s : Software) :
  findSoftware catalog key = Some s -> In s catalog.
Proof.
  intros (before & after & -> & _)%findSoftware_first.
  apply in_or_app. right. left. reflexivity.
Qed.

Lemma catalog_commands_no_apk :
  Forall (fun s => strings.Contains (Command s) "apk add" = false)
         commonSoftware.
Proof. unfold commonSoftware. repeat constructor. Qed.

(** Whatever the form, the selected install command does not contain
    "apk add". *)
Lemma selectInstallCommand_no_apk (form : list (string * string)) (cmd : string) :
  selectInstallCommand form = inr cmd ->
  strings.Contains cmd "apk add" = false.
Proof.
  unfold selectInstallCommand.
  destruct (String.eqb (FormValue form "software_type") "common").
  - destruct (findSoftware commonSoftware (FormValue form "common_software"))
      as [s|] eqn:Hfind; [|discriminate].
    intros [= <-]. apply findSoftware_In in Hfind.
    exact (proj1 (List.Forall_forall _ _) catalog_commands_no_apk s Hfind).
  - destruct (String.eqb (FormValue form "software_type") "custom");
      [|discriminate].
    destruct (String.eqb (strings.TrimSpace (FormValue form "custom_software")) "");
      [discriminate|].
    intros [= <-]. apply custom_command_no_apk, sanitizePackageName_no_space.
Qed.

(** C9. Whenever a request reaches the sudo branch, its install command
    contains no "apk add": the rewriting of "apk add" to "apt install -y"
    there changes nothing, and the branch computes what it would compute
    without that rewriting. *)
Theorem C9_sudo_normalization_is_no_op
    (form : list (string * string)) (cmd : string) (srv : Server) :
  selectInstallCommand form = inr cmd ->
  RootUsername srv <> "root" ->
  strings.Contains cmd "apk add" = false /\
  strings.ReplaceAll cmd "apk add" "apt install -y" = cmd /\
  buildScript srv cmd = buildScriptWithoutNormalization srv cmd.
Proof.
  intros Hsel Huser.
  pose proof (selectInstallCommand_no_apk form cmd Hsel) as Habs.
  pose proof (ReplaceAll_absent cmd "apk add" "apt install -y" Habs) as Hid.
  split; [exact Habs|]. split; [exact Hid|].
  unfold buildScriptWithoutNormalization.
  rewrite (buildScript_sudo srv cmd Huser), Hid.
  apply String.eqb_neq in Huser. rewrite Huser. reflexivity.
Qed.

(** ** The theorems at concrete requests *)

Lemma C4_sudo_git_command_witness :
  catalogRequest (postForm "10.0.0.2" "common" "common_software" "git")
                 "10.0.0.2" "git" /\
  map callCommand
    (snd (installSoftwareHandler sampleServers remoteOK
            (postForm "10.0.0.2" "common" "common_software" "git")))
  = ["echo 'pw' | sudo -S apt update && echo 'pw' | sudo -S apt install -y git"].
Proof.
  assert (Hreq : catalogRequest
                   (postForm "10.0.0.2" "common" "common_software" "git")
                   "10.0.0.2" "git").
  { split; [reflexivity|]. eexists. repeat split; reflexivity. }
  split; [exact Hreq|].
  apply (C4_sudo_git_command sampleServers remoteOK
           (postForm "10.0.0.2" "common" "common_software" "git")
           "10.0.0.2" (mkServer "deploy" "pw") Hreq).
  - discriminate.
  - vm_compute. reflexivity.
  - discriminate.
  - reflexivity.
Defined.

Lemma C5_root_nginx_command_witness :
  catalogRequest (postForm "10.0.0.1" "common" "common_software" "nginx")
                 "10.0.0.1" "nginx" /\
  map callCommand
    (snd (installSoftwareHandler sampleServers remoteOK
            (postForm "10.0.0.1" "common" "common_software" "nginx")))
  = ["apk update && apk add nginx"].
Proof.
  assert (Hreq : catalogRequest
                   (postForm "10.0.0.1" "common" "common_software" "nginx")
                   "10.0.0.1" "nginx").
  { split; [reflexivity|]. eexists. repeat split; reflexivity. }
  split; [exact Hreq|].
  apply (C5_root_nginx_command sampleServers remoteOK
           (postForm "10.0.0.1" "common" "common_software" "nginx")
           "10.0.0.1" (mkServer "root" "secret") Hreq).
  - discriminate.
  - vm_compute. reflexivity.
  - reflexivity.
Defined.

Lemma C3_log_layout_witness :
  In (mkCall "10.0.0.2" "deploy" "pw"
        "echo 'pw' | sudo -S apt update && echo 'pw' | sudo -S apt install -y curl")
     (snd (installSoftwareHandler sampleServers remoteDown
             (postForm "10.0.0.2" "common" "common_software" "curl"))) /\
  exists installCommand output err,
    "echo 'pw' | sudo -S apt update && echo 'pw' | sudo -S apt install -y curl"
      = "echo 'pw' | sudo -S apt update && echo 'pw' | sudo -S " +:+ installCommand /\
    remoteDown "10.0.0.2" "deploy" "pw"
      "echo 'pw' | sudo -S apt update && echo 'pw' | sudo -S apt install -y curl"
      = (output, err) /\
    installSoftwareHandler sampleServers remoteDown
      (postForm "10.0.0.2" "common" "common_software" "curl")
    = (Page "templates/logs.html"
         ("📦 Software Installation Log" +:+ nl +:+ nl
          +:+ "Server: " +:+ "10.0.0.2" +:+ nl
          +:+ "Command: " +:+ installCommand +:+ nl +:+ nl
          +:+ match err with
              | Some e => "❌ Installation failed: " +:+ e
              | None => "✅ Installation command executed successfully"
              end +:+ nl +:+ nl
          +:+ "Output:" +:+ nl +:+ output),
       [mkCall "10.0.0.2" "deploy" "pw"
          "echo 'pw' | sudo -S apt update && echo 'pw' | sudo -S apt install -y curl"]).
Proof.
  assert (Hin : In (mkCall "10.0.0.2" "deploy" "pw"
        "echo 'pw' | sudo -S apt update && echo 'pw' | sudo -S apt install -y curl")
     (snd (installSoftwareHandler sampleServers remoteDown
             (postForm "10.0.0.2" "common" "common_software" "curl")))).
  { left. vm_compute. reflexivity. }
  split; [exact Hin|].
  exact (C3_log_layout sampleServers remoteDown _ _ Hin).
Defined.

Lemma C9_sudo_normalization_is_no_op_witness :
  selectInstallCommand
    [("software_type", "custom"); ("custom_software", "apk add")]
  = inr "apt install -y apk" /\
  strings.Contains "apt install -y apk" "apk add" = false /\
  strings.ReplaceAll "apt install -y apk" "apk add" "apt install -y"
  = "apt install -y apk" /\
  buildScript (mkServer "deploy" "pw") "apt install -y apk"
  = buildScriptWithoutNormalization (mkServer "deploy" "pw")
      "apt install -y apk".
Proof.
  assert (Hsel : selectInstallCommand
                   [("software_type", "custom"); ("custom_software", "apk add")]
                 = inr "apt install -y apk").
  { vm_compute. reflexivity. }
  split; [exact Hsel|].
  apply (C9_sudo_normalization_is_no_op _ _ (mkServer "deploy" "pw") Hsel).
  discriminate.
Defined.

Lemma C10_root_command_ignores_password_witness :
  map callCommand
    (snd (installSoftwareHandler sampleServers remoteOK
            (postForm "10.0.0.1" "custom" "custom_software" "htop")))
  = map callCommand
      (snd (installSoftwareHandler sampleServersRotated remoteDown
              (postForm "10.0.0.1" "custom" "custom_software" "htop"))).
Proof.
  apply (C10_root_command_ignores_password sampleServers sampleServersRotated
           remoteOK remoteDown
           (postForm "10.0.0.1" "custom" "custom_software" "htop")
           [("server_ip", "10.0.0.1"); ("software_type", "custom");
            ("custom_software", "htop")]
           (mkServer "root" "secret") (mkServer "root" "rotated")).
  - reflexivity.
  - vm_compute. reflexivity.
  - vm_compute. reflexivity.
  - reflexivity.
  - reflexivity.
Defined.

(** Each way of being rejected, and a failed execution, at concrete
    requests. *)
Example rejected_requests :
  installSoftwareHandler sampleServers remoteOK (mkRequest "GET" (ParseOK []))
    = (HttpError "Method not allowed" 405, []) /\
  installSoftwareHandler sampleServers remoteOK
      (mkRequest "POST" (ParseErr "invalid semicolon separator in query"))
    = (HttpError "Error parsing form: invalid semicolon separator in query" 400,
       []) /\
  installSoftwareHandler sampleServers remoteOK
      (postForm "" "common" "common_software" "git")
    = (HttpError "Server IP is required" 400, []) /\
  installSoftwareHandler sampleServers remoteOK
      (postForm "10.9.9.9" "common" "common_software" "git")
    = (HttpError "Server not found" 404, []) /\
  installSoftwareHandler sampleServers remoteOK
      (postForm "10.0.0.1" "common" "common_software" "emacs")
    = (HttpError "Selected software not found" 400, []) /\
  installSoftwareHandler sampleServers remoteOK
      (postForm "10.0.0.1" "custom" "custom_software" "   ")
    = (HttpError "Custom software name is required" 400, []) /\
  installSoftwareHandler sampleServers remoteOK
      (postForm "10.0.0.1" "script" "custom_software" "git")
    = (HttpError "Invalid software type" 400, []).
Proof. repeat split; vm_compute; reflexivity. Qed.

Example failed_execution_is_rendered :
  installSoftwareHandler sampleServers remoteDown
    (postForm "10.0.0.1" "common" "common_software" "vim")
  = (Page "templates/logs.html"
       (renderLog "10.0.0.1" "apk add vim" "partial output"
                  (Some "connection refused")),
     [mkCall "10.0.0.1" "root" "secret" "apk update && apk add vim"]).
Proof. vm_compute. reflexivity. Qed.

(** * Further properties of the code *)

(** ** The sanitizer only removes *)

Lemma sanitizePackageName_firstField (name : string) :
  sanitizePackageName name = firstField (strings.Fields (removeDisallowed name)).
Proof. reflexivity. Qed.

Lemma Fields_lacks (c : ascii) (s : string) :
  hasByte c s = false ->
  Forall (fun field => hasByte c field = false) (strings.Fields s).
Proof.
  intros Hs. apply fieldsLoop_lacks; [apply rangeRunes_lacks, Hs|exact I].
Qed.

Lemma firstField_Forall (P : string -> Prop) (parts : list string) :
  P "" -> Forall P parts -> P (firstField parts).
Proof. intros H0 H. destruct H; [exact H0|assumption]. Qed.

Lemma sanitize_keeps_absent (c : ascii) (name : string) :
  hasByte c name = false -> hasByte c (sanitizePackageName name) = false.
Proof.
  intros Hname. rewrite sanitizePackageName_firstField.
  apply (firstField_Forall (fun field => hasByte c field = false));
    [reflexivity|].
  apply Fields_lacks. unfold removeDisallowed.
  apply removal_pass_keeps_absent, Hname.
Qed.

(** Every byte of the result of [sanitizePackageName] is a byte of its
    input: the function never writes a byte of its own. *)
Theorem sanitizePackageName_only_removes (c : ascii) (name : string) :
  hasByte c (sanitizePackageName name) = true -> hasByte c name = true.
Proof.
  intros Hout. destruct (hasByte c name) eqn:Hname; [reflexivity|].
  rewrite (sanitize_keeps_absent c name Hname) in Hout. discriminate.
Qed.

(** ** The result is one token *)

Lemma asciiSpace_val (c : ascii) :
  asciiSpace c = true ->
  byteVal c < 0x80 /\ unicode.IsSpace (byteVal c) = true.
Proof.
  unfold asciiSpace, utf8.RuneSelf. intros [H1 H2]%andb_prop. split; [lia|exact H2].
Qed.





(** ** Names without an ampersand are fully sanitized *)

Lemma disallowed_token_byte (token : string) :
  In token disallowed ->
  exists c, hasByte c token = true /\
            (In (String c "") disallowed \/ c = "&"%char).
Proof.
  unfold disallowed, dquote, nl, cr. cbn [In]. intros Hin.
  repeat (destruct Hin as [<-|Hin];
          [eexists; split;
           [cbn [hasByte]; rewrite Ascii.eqb_refl; reflexivity
           |first [right; reflexivity
                  |left; repeat first [left; reflexivity|right]]]|]).
  destruct Hin.
Qed.

(** When the input has no ampersand, no disallowed token at all occurs in
    the result of [sanitizePackageName]. *)
Theorem sanitizePackageName_without_ampersand (name token : string) :
  hasByte "&" name = false ->
  In token disallowed ->
  strings.Contains (sanitizePackageName name) token = false.
Proof.
  intros Hamp Hin. unfold strings.Contains.
  destruct (disallowed_token_byte token Hin) as (c & Hc & [Hdis| ->]).
  - rewrite (Index_missing_byte c _ token Hc
               (sanitizePackageName_lacks_byte c name Hdis)). reflexivity.
  - rewrite (Index_missing_byte "&" _ token Hc
               (sanitize_keeps_absent "&" name Hamp)). reflexivity.
Qed.

(** ** Clean names pass unchanged *)

Lemma removal_pass_absent (tokens : list string) (s : string) :
  (forall token, In token tokens -> strings.Contains s token = false) ->
  fold_left (fun result char => strings.ReplaceAll result char "") tokens s = s.
Proof.
  induction tokens as [|t tokens IH]; intros Habs; cbn [fold_left];
    [reflexivity|].
  rewrite (ReplaceAll_absent s t "") by (apply Habs; left; reflexivity).
  apply IH. intros token Hin. apply Habs. right. exact Hin.
Qed.

Lemma concatS_cons (x : string) (l : list string) :
  concatS (x :: l) = x +:+ concatS l.
Proof. reflexivity. Qed.

(** Runes that are not white space all go to the span under
    construction. *)
Lemma fieldsLoop_one_span (rs : list (Z * string)) (span : string) :
  Forall (fun rb : Z * string => unicode.IsSpace (fst rb) = false) rs ->
  strings.fieldsLoop unicode.IsSpace rs (Some span)
  = [span +:+ concatS (map snd rs)].
Proof.
  intros Hrs. revert span.
  induction Hrs as [|[r bytes] rs Hr Hrs IH]; intros span;
    cbn [strings.fieldsLoop map].
  - cbn [concatS fold_right]. rewrite app_empty_r. reflexivity.
  - cbn [fst] in Hr. rewrite Hr, IH, concatS_cons. cbn [snd].
    rewrite app_assoc_S. reflexivity.
Qed.

Lemma Fields_no_white_space (s : string) :
  s <> "" ->
  Forall (fun rb : Z * string => unicode.IsSpace (fst rb) = false)
         (utf8.rangeString s) ->
  strings.Fields s = [s].
Proof.
  intros Hs Hrunes. unfold strings.Fields, strings.FieldsFunc.
  pose proof (rangeString_bytes s) as Hbytes.
  destruct (utf8.rangeString s) as [|[r bytes] rs].
  - cbn in Hbytes. congruence.
  - pose proof (List.Forall_inv Hrunes) as Hr.
    pose proof (List.Forall_inv_tail Hrunes) as Hrs. cbn [fst] in Hr.
    cbn [strings.fieldsLoop]. rewrite Hr, (fieldsLoop_one_span rs bytes Hrs).
    cbn [map snd] in Hbytes. rewrite concatS_cons in Hbytes.
    rewrite Hbytes. reflexivity.
Qed.

(** A non-empty name that contains no disallowed token and no white space
    rune is returned as it is. *)
Theorem sanitizePackageName_clean_name (name : string) :
  name <> "" ->
  (forall token, In token disallowed -> strings.Contains name token = false) ->
  Forall (fun rb : Z * string => unicode.IsSpace (fst rb) = false)
         (utf8.rangeString name) ->
  sanitizePackageName name = name.
Proof.
  intros Hne Htokens Hrunes. unfold sanitizePackageName, removeDisallowed.
  rewrite (removal_pass_absent disallowed name Htokens).
  rewrite (Fields_no_white_space name Hne Hrunes). reflexivity.
Qed.

(** ** Blank and fully disallowed names give the empty token *)

Lemma allBytes_app (P : ascii -> bool) (s t : string) :
  allBytes P (s +:+ t) = allBytes P s && allBytes P t.
Proof.
  induction s as [|c s IH]; [reflexivity|].
  rewrite app_cons. cbn [allBytes]. rewrite IH. apply andb_assoc.
Qed.

Lemma allBytes_takeS (P : ascii -> bool) (n : nat) (s : string) :
  allBytes P s = true -> allBytes P (takeS n s) = true.
Proof.
  intros H. rewrite <- (takeS_dropS n s), allBytes_app in H.
  apply andb_prop in H as [H _]. exact H.
Qed.

Lemma allBytes_dropS (P : ascii -> bool) (n : nat) (s : string) :
  allBytes P s = true -> allBytes P (dropS n s) = true.
Proof.
  intros H. rewrite <- (takeS_dropS n s), allBytes_app in H.
  apply andb_prop in H as [_ H]. exact H.
Qed.

Lemma replaceLoop_allBytes (P : ascii -> bool) (fuel : nat) (s old : string) :
  allBytes P s = true ->
  allBytes P (strings.replaceLoop fuel s old "") = true.
Proof.
  revert s. induction fuel as [|fuel IH]; intros s Hs;
    cbn [strings.replaceLoop]; [exact Hs|].
  destruct (strings.Index s old) as [j|]; [|exact Hs].
  rewrite !allBytes_app, (allBytes_takeS P j s Hs). cbn [allBytes andb].
  apply IH, allBytes_dropS, Hs.
Qed.

Lemma removal_pass_allBytes (P : ascii -> bool) (tokens : list string) (s : string) :
  allBytes P s = true ->
  allBytes P (fold_left (fun result char => strings.ReplaceAll result char "")
                        tokens s) = true.
Proof.
  revert s. induction tokens as [|t tokens IH]; intros s Hs; cbn [fold_left];
    [exact Hs|].
  apply IH. unfold strings.ReplaceAll.
  destruct t as [|o t]; [exact Hs|].
  destruct (String.eqb (String o t) ""); [exact Hs|].
  apply replaceLoop_allBytes, Hs.
Qed.

Lemma allBytes_without (P Q : ascii -> bool) (s : string) :
  allBytes (fun c => P c || Q c) s = true ->
  (forall c, Q c = true -> hasByte c s = false) ->
  allBytes P s = true.
Proof.
  induction s as [|x s IH]; cbn [allBytes]; [reflexivity|].
  intros [Hx Hs]%andb_prop Hq.
  rewrite IH; [|exact Hs|].
  - destruct (Q x) eqn:Hqx; [|rewrite orb_false_r in Hx; rewrite Hx; reflexivity].
    specialize (Hq x Hqx). cbn [hasByte] in Hq.
    rewrite Ascii.eqb_refl in Hq. discriminate.
  - intros c Hc. specialize (Hq c Hc). cbn [hasByte] in Hq.
    apply orb_false_elim in Hq as [_ Hq]. exact Hq.
Qed.

Lemma disallowedByte_In (c : ascii) :
  disallowedByte c = true -> In (String c "") disallowed.
Proof.
  unfold disallowedByte. intros (t & Hin & Heq)%existsb_exists.
  apply String.eqb_eq in Heq. subst t. exact Hin.
Qed.

Lemma DecodeRune_ASCII (c : ascii) (s : string) :
  byteVal c < 0x80 ->
  utf8.DecodeRuneInString (String c s) = (byteVal c, 1%nat).
Proof.
  intros Hc. cbn [utf8.DecodeRuneInString]. cbv zeta. unfold utf8.first.
  destruct (byteVal c <? 128) eqn:E; [reflexivity|lia].
Qed.

(** A string of ASCII white space decodes to white space runes only. *)
Lemma rangeRunes_blank (fuel : nat) (s : string) :
  allBytes asciiSpace s = true ->
  Forall (fun rb : Z * string => unicode.IsSpace (fst rb) = true)
         (utf8.rangeRunes fuel s).
Proof.
  revert s. induction fuel as [|fuel IH]; intros s Hs; cbn [utf8.rangeRunes];
    [constructor|].
  destruct s as [|c s]; [constructor|].
  cbn [allBytes] in Hs. apply andb_prop in Hs as [Hc Hs].
  apply asciiSpace_val in Hc as [Hc Hsp].
  rewrite (DecodeRune_ASCII c s Hc). constructor; [exact Hsp|].
  apply IH. exact Hs.
Qed.

Lemma fieldsLoop_blank (rs : list (Z * string)) :
  Forall (fun rb : Z * string => unicode.IsSpace (fst rb) = true) rs ->
  strings.fieldsLoop unicode.IsSpace rs None = [].
Proof.
  induction 1 as [|[r bytes] rs Hr Hrs IH]; cbn [strings.fieldsLoop];
    [reflexivity|].
  cbn [fst] in Hr. rewrite Hr. exact IH.
Qed.

(** A name made only of ASCII white space and of bytes that are
    disallowed tokens sanitizes to the empty string. *)
Theorem sanitizePackageName_nothing_left (name : string) :
  allBytes (fun c => asciiSpace c || disallowedByte c) name = true ->
  sanitizePackageName name = "".
Proof.
  intros Hname. unfold sanitizePackageName.
  assert (Hblank : allBytes asciiSpace (removeDisallowed name) = true).
  { apply (allBytes_without asciiSpace disallowedByte).
    - apply removal_pass_allBytes, Hname.
    - intros c Hc. apply removal_pass_removes_byte, disallowedByte_In, Hc. }
  unfold strings.Fields, strings.FieldsFunc, utf8.rangeString.
  rewrite (fieldsLoop_blank _ (rangeRunes_blank _ _ Hblank)). reflexivity.
Qed.

(** ** The command text of a custom request *)

(** On the root branch, the custom install command becomes "apk add "
    followed by the token. *)
Lemma custom_command_to_apk (token : string) :
  hasByte " " token = false ->
  strings.ReplaceAll ("apt install -y " +:+ token) "apt install -y" "apk add"
  = "apk add " +:+ token.
Proof.
  intros Htok.
  pose proof (Index_missing_byte " " token "apt install -y" eq_refl Htok) as Hidx.
  unfold strings.ReplaceAll. cbv [String.append].
  cbn [String.eqb Ascii.eqb Bool.eqb andb String.length strings.replaceLoop
       strings.Index strings.HasPrefix].
  cbn [takeS dropS Nat.add String.length strings.replaceLoop
       strings.Index strings.HasPrefix Ascii.eqb Bool.eqb andb].
  rewrite Hidx. reflexivity.
Qed.

(** A custom request that passes the checks sends the update step
    followed by the installation of exactly one token, the sanitized
    name: "apk update && apk add <token>" on a root server, and the
    password-piped "sudo -S apt update" and
    "sudo -S apt install -y <token>" otherwise. *)
Theorem custom_request_command
    (ipMap : gmap string Server)
    (runRemoteCommand : string -> string -> string -> string -> string * option string)
    (r : Request) (ip name : string) (srv : Server) :
  customRequest r ip name ->
  ip <> "" ->
  ipMap !! ip = Some srv ->
  strings.TrimSpace name <> "" ->
  map callCommand (snd (installSoftwareHandler ipMap runRemoteCommand r)) =
    [if String.eqb (RootUsername srv) "root" then
       "apk update && apk add "
         +:+ sanitizePackageName (strings.TrimSpace name)
     else
       "echo '" +:+ RootPassword srv
         +:+ "' | sudo -S apt update && echo '" +:+ RootPassword srv
         +:+ "' | sudo -S apt install -y "
         +:+ sanitizePackageName (strings.TrimSpace name)].
Proof.
  intros (Hm & form & Hf & Hip & Hty & Hname) Hne Hsrv Htrim. subst ip.
  assert (Hsel : selectInstallCommand form
                 = inr ("apt install -y "
                          +:+ sanitizePackageName (strings.TrimSpace name))).
  { unfold selectInstallCommand. rewrite Hty, Hname.
    cbn [String.eqb Ascii.eqb Bool.eqb andb].
    apply String.eqb_neq in Htrim. rewrite Htrim. reflexivity. }
  rewrite (handler_executes ipMap runRemoteCommand r form srv _
             Hm Hf Hne Hsrv Hsel).
  cbn [snd map callCommand]. f_equal.
  pose proof (sanitizePackageName_no_space (strings.TrimSpace name)) as Htok.
  unfold buildScript. destruct (String.eqb (RootUsername srv) "root"); cbn [fst].
  - rewrite (custom_command_to_apk _ Htok). reflexivity.
  - rewrite (ReplaceAll_absent _ _ _ (custom_command_no_apk _ Htok)).
    reflexivity.
Qed.

(** ** The command text of a catalog request *)

Lemma catalog_commands_shape :
  Forall (fun s =>
            exists packages,
              Command s = "apt install -y " +:+ packages /\
              strings.ReplaceAll (Command s) "apt install -y" "apk add"
              = "apk add " +:+ packages)
         commonSoftware.
Proof.
  unfold commonSoftware.
  repeat (constructor; [eexists; split; reflexivity|]). constructor.
Qed.

(** A catalog request that passes the checks sends, for the entry found,
    the update step followed by the entry's packages: "apk update && apk
    add <packages>" on a root server, and the password-piped
    "sudo -S apt update" and "sudo -S apt install -y <packages>"
    otherwise. *)
Theorem catalog_request_command
    (ipMap : gmap string Server)
    (runRemoteCommand : string -> string -> string -> string -> string * option string)
    (r : Request) (ip key : string) (srv : Server) (s : Software) :
  catalogRequest r ip key ->
  ip <> "" ->
  ipMap !! ip = Some srv ->
  findSoftware commonSoftware key = Some s ->
  exists packages,
    Command s = "apt install -y " +:+ packages /\
    map callCommand (snd (installSoftwareHandler ipMap runRemoteCommand r)) =
      [if String.eqb (RootUsername srv) "root" then
         "apk update && apk add " +:+ packages
       else
         "echo '" +:+ RootPassword srv
           +:+ "' | sudo -S apt update && echo '" +:+ RootPassword srv
           +:+ "' | sudo -S apt install -y " +:+ packages].
Proof.
  intros (Hm & form & Hf & Hip & Hty & Hkey) Hne Hsrv Hfind. subst ip key.
  pose proof (selectInstallCommand_common form s Hty Hfind) as Hsel.
  apply findSoftware_In in Hfind.
  destruct (proj1 (List.Forall_forall _ _) catalog_commands_shape s Hfind)
    as (packages & Hcmd & Hapk).
  pose proof (proj1 (List.Forall_forall _ _) catalog_commands_no_apk s Hfind)
    as Hnoapk.
  exists packages. split; [exact Hcmd|].
  rewrite (handler_executes ipMap runRemoteCommand r form srv _
             Hm Hf Hne Hsrv Hsel).
  cbn [snd map callCommand]. f_equal.
  unfold buildScript. destruct (String.eqb (RootUsername srv) "root"); cbn [fst].
  - rewrite Hapk. reflexivity.
  - rewrite (ReplaceAll_absent _ _ _ Hnoapk), Hcmd. reflexivity.
Qed.

(** ** Whom the handler calls, and what it answers *)

Section HandlerShape.

Variable ipMap : gmap string Server.
Variable runRemoteCommand :
  string -> string -> string -> string -> string * option string.

Local Abbreviation handler := (installSoftwareHandler ipMap runRemoteCommand).

(** Every remote call goes to the address sent in the form, which is a
    key of the registry, with the user and the password the registry
    holds for that address; and it is the only call of the request. *)
Theorem handler_calls_registered_server (r : Request) (c : RemoteCall) :
  In c (snd (handler r)) ->
  (exists form,
     ParseForm r = ParseOK form /\ callIP c = FormValue form "server_ip") /\
  ipMap !! callIP c = Some (mkServer (callUser c) (callPassword c)) /\
  snd (handler r) = [c].
Proof.
  intros Hc.
  destruct (handler_call_inv ipMap runRemoteCommand r c Hc)
    as (Hm & form & srv & cmd & Hf & Hip & Hsrv & Hsel).
  pose proof (handler_executes ipMap runRemoteCommand r form srv cmd
                Hm Hf Hip Hsrv Hsel) as Hrun.
  cbn zeta in Hrun. rewrite Hrun in Hc |- *. destruct Hc as [<-|[]].
  cbn [snd callIP callUser callPassword]. split; [eauto|].
  split; [|reflexivity]. rewrite Hsrv. destruct srv; reflexivity.
Qed.

(** The answer is an error exactly when no remote call was made, and the
    log page exactly when one call was made. *)
Theorem handler_response_matches_calls (r : Request) :
  match fst (handler r) with
  | HttpError _ _ => snd (handler r) = []
  | Page template _ =>
    template = "templates/logs.html" /\ length (snd (handler r)) = 1%nat
  end.
Proof.
  unfold installSoftwareHandler.
  destruct (negb (String.eqb (Method r) MethodPost)); [reflexivity|].
  destruct (ParseForm r) as [err|form]; [reflexivity|].
  destruct (String.eqb (FormValue form "server_ip") ""); [reflexivity|].
  destruct (ipMap !! FormValue form "server_ip") as [srv|]; [|reflexivity].
  destruct (selectInstallCommand form) as [resp|cmd] eqn:Hsel.
  - cbn [fst snd]. unfold selectInstallCommand in Hsel.
    repeat match type of Hsel with
           | context [if ?b then _ else _] => destruct b
           | context [match ?o with Some _ => _ | None => _ end] => destruct o
           end; try discriminate; injection Hsel as <-; reflexivity.
  - destruct (buildScript srv cmd) as [script cmd'].
    destruct (runRemoteCommand _ _ _ script). cbn [fst snd]. auto.
Qed.

Lemma selectInstallCommand_error (form : list (string * string)) (resp : Response) :
  selectInstallCommand form = inl resp ->
  exists msg, resp = HttpError msg StatusBadRequest.
Proof.
  unfold selectInstallCommand. intros Hsel.
  repeat match type of Hsel with
         | context [if ?b then _ else _] => destruct b
         | context [match ?o with Some _ => _ | None => _ end] => destruct o
         end; try discriminate; injection Hsel as <-; eauto.
Qed.

(** The status of an error answer tells what went wrong: 405 exactly for
    a method other than POST, 404 exactly for a non-empty address that the
    registry does not hold, and 400 for everything else (unparsable form,
    empty address, or a rejected package selection on a known server). *)
Theorem handler_status_codes (r : Request) (msg : string) (code : Z) :
  fst (handler r) = HttpError msg code ->
  (code = 405 /\ Method r <> MethodPost) \/
  (code = 404 /\ Method r = MethodPost /\
   exists form, ParseForm r = ParseOK form /\
                FormValue form "server_ip" <> "" /\
                ipMap !! FormValue form "server_ip" = None) \/
  (code = 400 /\ Method r = MethodPost /\
   ((exists err, ParseForm r = ParseErr err) \/
    exists form, ParseForm r = ParseOK form /\
      (FormValue form "server_ip" = "" \/
       (FormValue form "server_ip" <> "" /\
        is_Some (ipMap !! FormValue form "server_ip") /\
        selectInstallCommand form = inl (HttpError msg 400))))).
Proof.
  unfold installSoftwareHandler.
  destruct (String.eqb_spec (Method r) MethodPost) as [Hm|Hm]; cbn [negb fst].
  2:{ intros [= <- <-]. left. auto. }
  destruct (ParseForm r) as [err|form]; cbn [fst].
  { intros [= <- <-]. right. right. eauto 6. }
  destruct (String.eqb_spec (FormValue form "server_ip") "") as [Hip|Hip];
    cbn [fst].
  { intros [= <- <-]. right. right. eauto 8. }
  destruct (ipMap !! FormValue form "server_ip") as [srv|] eqn:Hsrv; cbn [fst].
  2:{ intros [= <- <-]. right. left. eauto 8. }
  destruct (selectInstallCommand form) as [resp|cmd] eqn:Hsel; cbn [fst].
  - intros ->. destruct (selectInstallCommand_error form _ Hsel) as (m & [= <- ->]).
    right. right. split; [reflexivity|]. split; [exact Hm|]. right.
    exists form. split; [reflexivity|]. right. eauto.
  - destruct (buildScript srv cmd) as [script cmd'].
    destruct (runRemoteCommand _ _ _ script). discriminate.
Qed.

(** A custom name made only of white space is rejected with "Custom
    software name is required" and no remote call, although the server is
    known. *)
Theorem blank_custom_name_rejected (r : Request) (ip name : string) (srv : Server) :
  customRequest r ip name ->
  ip <> "" ->
  ipMap !! ip = Some srv ->
  Forall (fun rb : Z * string => unicode.IsSpace (fst rb) = true)
         (utf8.rangeString name) ->
  handler r = (HttpError "Custom software name is required" 400, []).
Proof.
  intros (Hm & form & Hf & Hip & Hty & Hname) Hne Hsrv Hblank. subst ip.
  assert (Htrim : strings.TrimSpace name = "").
  { unfold strings.TrimSpace, strings.TrimFunc.
    assert (Hleft : strings.TrimLeftFunc name unicode.IsSpace = "").
    { unfold strings.TrimLeftFunc, strings.indexFunc.
      generalize 0%nat.
      induction Hblank as [|[rn bytes] rs Hr Hrs IH]; intros i;
        cbn [strings.indexFuncLoop]; [reflexivity|].
      cbn [fst] in Hr. rewrite Hr. cbn [Bool.eqb]. apply IH. }
    rewrite Hleft. reflexivity. }
  unfold installSoftwareHandler. rewrite Hm, Hf. cbn [negb].
  rewrite String.eqb_refl. cbn [negb].
  apply String.eqb_neq in Hne. rewrite Hne, Hsrv.
  unfold selectInstallCommand. rewrite Hty, Hname, Htrim. reflexivity.
Qed.

End HandlerShape.

(** ** The sanitizer never lengthens *)

Lemma length_app_S (s t : string) :
  String.length (s +:+ t) = (String.length s + String.length t)%nat.
Proof.
  induction s as [|c s IH]; [reflexivity|].
  rewrite app_cons. cbn [String.length]. rewrite IH. reflexivity.
Qed.

Lemma length_takeS_min (n : nat) (s : string) :
  String.length (takeS n s) = Nat.min n (String.length s).
Proof.
  revert s. induction n as [|n IH]; intros [|c s]; cbn [takeS String.length];
    try reflexivity.
  rewrite IH. reflexivity.
Qed.

Lemma replaceLoop_length (fuel : nat) (s old : string) :
  (String.length (strings.replaceLoop fuel s old "") <= String.length s)%nat.
Proof.
  revert s. induction fuel as [|fuel IH]; intros s; cbn [strings.replaceLoop];
    [lia|].
  destruct (strings.Index s old) as [j|]; [|lia].
  rewrite !length_app_S, length_takeS_min. cbn [String.length].
  specialize (IH (dropS (j + String.length old) s)).
  rewrite length_dropS in IH. lia.
Qed.

Lemma removal_pass_length (tokens : list string) (s : string) :
  (String.length
     (fold_left (fun result char => strings.ReplaceAll result char "") tokens s)
   <= String.length s)%nat.
Proof.
  revert s. induction tokens as [|t tokens IH]; intros s; cbn [fold_left];
    [lia|].
  etransitivity; [apply IH|]. unfold strings.ReplaceAll.
  destruct t as [|o t]; [cbn; lia|].
  destruct (String.eqb (String o t) ""); [lia|]. apply replaceLoop_length.
Qed.

Lemma fieldsLoop_length (rs : list (Z * string)) (cur : option string) :
  Forall (fun field =>
            (String.length field
             <= String.length (default "" cur)
                + String.length (concatS (map snd rs)))%nat)
         (strings.fieldsLoop unicode.IsSpace rs cur).
Proof.
  revert cur. induction rs as [|[r bytes] rs IH]; intros cur;
    cbn [strings.fieldsLoop map].
  - destruct cur; repeat constructor. cbn. lia.
  - rewrite concatS_cons, length_app_S. cbn [snd].
    destruct (unicode.IsSpace r).
    + destruct cur as [span|]; [constructor; [cbn; lia|]|];
        (eapply List.Forall_impl; [|apply (IH None)]);
        intros field Hf; unfold default, from_option, id in Hf |- *;
        cbn [String.length] in *; lia.
    + destruct cur as [span|];
        (eapply List.Forall_impl; [|apply (IH (Some _))]);
        intros field Hf; unfold default, from_option, id in Hf |- *;
        rewrite ?length_app_S in Hf; cbn [String.length]; lia.
Qed.

(** The result of [sanitizePackageName] is never longer than its input. *)
Theorem sanitizePackageName_length (name : string) :
  (String.length (sanitizePackageName name) <= String.length name)%nat.
Proof.
  rewrite sanitizePackageName_firstField.
  apply (firstField_Forall
           (fun field => (String.length field <= String.length name)%nat));
    [cbn; lia|].
  eapply List.Forall_impl;
    [|apply (fieldsLoop_length (utf8.rangeString (removeDisallowed name)) None)].
  cbn [default String.length]. intros field Hf.
  rewrite rangeString_bytes in Hf.
  pose proof (removal_pass_length disallowed name) as Hrem.
  fold (removeDisallowed name) in Hrem. lia.
Qed.

(** ** When the sanitizer returns the empty string *)

Lemma app_nonempty (s t : string) : s <> "" -> s +:+ t <> "".
Proof. destruct s; [contradiction|discriminate]. Qed.

Lemma rangeRunes_nonempty (fuel : nat) (s : string) :
  Forall (fun rb : Z * string => snd rb <> "") (utf8.rangeRunes fuel s).
Proof.
  revert s. induction fuel as [|fuel IH]; intros s; cbn [utf8.rangeRunes];
    [constructor|].
  destruct s as [|c s]; [constructor|].
  pose proof (DecodeRune_progress c s) as Hn.
  destruct (utf8.DecodeRuneInString (String c s)) as [r n].
  cbn [snd] in Hn. constructor; [|apply IH].
  cbn [snd]. destruct n; [lia|discriminate].
Qed.

Lemma fieldsLoop_nonempty (rs : list (Z * string)) (cur : option string) :
  Forall (fun rb : Z * string => snd rb <> "") rs ->
  match cur with Some span => span <> "" | None => True end ->
  Forall (fun field => field <> "") (strings.fieldsLoop unicode.IsSpace rs cur).
Proof.
  intros Hrs. revert cur.
  induction Hrs as [|[r bytes] rs Hr Hrs IH]; intros cur Hcur;
    cbn [strings.fieldsLoop].
  - destruct cur; constructor; [assumption|constructor].
  - cbn [snd] in Hr. destruct (unicode.IsSpace r).
    + destruct cur; [constructor; [assumption|]|]; apply IH; exact I.
    + destruct cur as [span|]; apply IH; [apply app_nonempty, Hcur|exact Hr].
Qed.

Lemma fieldsLoop_open_span (rs : list (Z * string)) (span : string) :
  strings.fieldsLoop unicode.IsSpace rs (Some span) <> [].
Proof.
  revert span. induction rs as [|[r bytes] rs IH]; intros span;
    cbn [strings.fieldsLoop]; [discriminate|].
  destruct (unicode.IsSpace r); [discriminate|apply IH].
Qed.

Lemma fieldsLoop_nil (rs : list (Z * string)) :
  strings.fieldsLoop unicode.IsSpace rs None = [] ->
  Forall (fun rb : Z * string => unicode.IsSpace (fst rb) = true) rs.
Proof.
  induction rs as [|[r bytes] rs IH]; cbn [strings.fieldsLoop];
    [constructor|].
  destruct (unicode.IsSpace r) eqn:Hr.
  - intros H. constructor; [exact Hr|apply IH, H].
  - intros H. destruct (fieldsLoop_open_span rs bytes H).
Qed.

(** [sanitizePackageName] returns the empty string exactly when, after
    the disallowed tokens are removed, every rune left is white space
    (in particular when nothing is left). *)
Theorem sanitizePackageName_empty_iff (name : string) :
  sanitizePackageName name = "" <->
  Forall (fun rb : Z * string => unicode.IsSpace (fst rb) = true)
         (utf8.rangeString (removeDisallowed name)).
Proof.
  rewrite sanitizePackageName_firstField.
  unfold strings.Fields, strings.FieldsFunc. split.
  - intros Hempty. apply fieldsLoop_nil.
    pose proof (fieldsLoop_nonempty
                  (utf8.rangeString (removeDisallowed name)) None
                  (rangeRunes_nonempty _ _) I) as Hfields.
    destruct (strings.fieldsLoop unicode.IsSpace
                (utf8.rangeString (removeDisallowed name)) None)
      as [|part parts]; [reflexivity|].
    cbn [firstField] in Hempty. subst part.
    apply List.Forall_inv in Hfields. contradiction.
  - intros Hblank. rewrite (fieldsLoop_blank _ Hblank). reflexivity.
Qed.

(** ** Success and failure logs *)

(** A log that reports success and a log that reports failure for the same
    server and command are never the same text, whatever the outputs and
    the error text. *)
Theorem renderLog_outcomes_differ
    (serverIP installCommand output1 output2 e : string) :
  renderLog serverIP installCommand output1 None
  <> renderLog serverIP installCommand output2 (Some e).
Proof.
  unfold renderLog. rewrite !app_assoc_S. intros Heq.
  repeat match type of Heq with
         | ?a +:+ _ = ?a +:+ _ => apply (inj (String.app a)) in Heq
         end.
  cbv [String.append] in Heq. discriminate.
Qed.

(** ** The further properties at concrete inputs *)

Lemma sanitizePackageName_only_removes_witness :
  hasByte "f" (sanitizePackageName "foo; rm -rf /") = true /\
  hasByte "f" "foo; rm -rf /" = true.
Proof.
  assert (H : hasByte "f" (sanitizePackageName "foo; rm -rf /") = true).
  { vm_compute. reflexivity. }
  split; [exact H|].
  exact (sanitizePackageName_only_removes "f" "foo; rm -rf /" H).
Defined.

Lemma sanitizePackageName_removes_other_tokens_witness :
  In "|" disallowed /\
  strings.Contains (sanitizePackageName "a|b&|&c") "|" = false.
Proof.
  assert (H : In "|" disallowed).
  { unfold disallowed. cbn [In]. repeat first [left; reflexivity|right]. }
  split; [exact H|].
  apply (sanitizePackageName_removes_other_tokens "a|b&|&c" "|" H).
  discriminate.
Defined.


Lemma sanitizePackageName_without_ampersand_witness :
  hasByte "&" "x;|y || z" = false /\
  In "||" disallowed /\
  strings.Contains (sanitizePackageName "x;|y || z") "||" = false.
Proof.
  assert (H1 : hasByte "&" "x;|y || z" = false) by reflexivity.
  assert (H2 : In "||" disallowed).
  { unfold disallowed. cbn [In]. repeat first [left; reflexivity|right]. }
  split; [exact H1|]. split; [exact H2|].
  exact (sanitizePackageName_without_ampersand "x;|y || z" "||" H1 H2).
Defined.

Lemma sanitizePackageName_clean_name_witness :
  sanitizePackageName "docker.io" = "docker.io".
Proof.
  apply sanitizePackageName_clean_name.
  - discriminate.
  - unfold disallowed, dquote, nl, cr. cbn [In]. intros token Hin.
    repeat (destruct Hin as [<-|Hin]; [reflexivity|]). destruct Hin.
  - vm_compute. repeat constructor.
Defined.

Lemma sanitizePackageName_nothing_left_witness :
  allBytes (fun c => asciiSpace c || disallowedByte c)
           (" ;" +:+ tab +:+ "$( ) `" +:+ nl) = true /\
  sanitizePackageName (" ;" +:+ tab +:+ "$( ) `" +:+ nl) = "".
Proof.
  assert (H : allBytes (fun c => asciiSpace c || disallowedByte c)
                       (" ;" +:+ tab +:+ "$( ) `" +:+ nl) = true).
  { vm_compute. reflexivity. }
  split; [exact H|].
  exact (sanitizePackageName_nothing_left _ H).
Defined.

Lemma custom_request_command_witness :
  map callCommand
    (snd (installSoftwareHandler sampleServers remoteOK
            (postForm "10.0.0.2" "custom" "custom_software"
                      "  htop; rm -rf /")))
  = ["echo 'pw' | sudo -S apt update && echo 'pw' | sudo -S apt install -y htop"].
Proof.
  apply (custom_request_command sampleServers remoteOK
           (postForm "10.0.0.2" "custom" "custom_software" "  htop; rm -rf /")
           "10.0.0.2" "  htop; rm -rf /" (mkServer "deploy" "pw")).
  - split; [reflexivity|]. eexists. repeat split; reflexivity.
  - discriminate.
  - vm_compute. reflexivity.
  - vm_compute. discriminate.
Defined.

Lemma catalog_request_command_witness :
  exists packages,
    "apt install -y nodejs npm" = "apt install -y " +:+ packages /\
    map callCommand
      (snd (installSoftwareHandler sampleServers remoteOK
              (postForm "10.0.0.1" "common" "common_software" "nodejs")))
    = ["apk update && apk add " +:+ packages].
Proof.
  apply (catalog_request_command sampleServers remoteOK
           (postForm "10.0.0.1" "common" "common_software" "nodejs")
           "10.0.0.1" "nodejs" (mkServer "root" "secret")
           (mkSoftware "nodejs" "JavaScript runtime" "apt install -y nodejs npm")).
  - split; [reflexivity|]. eexists. repeat split; reflexivity.
  - discriminate.
  - vm_compute. reflexivity.
  - reflexivity.
Defined.

Lemma handler_calls_registered_server_witness :
  sampleServers !! "10.0.0.2" = Some (mkServer "deploy" "pw") /\
  snd (installSoftwareHandler sampleServers remoteDown
         (postForm "10.0.0.2" "common" "common_software" "vim"))
  = [mkCall "10.0.0.2" "deploy" "pw"
       "echo 'pw' | sudo -S apt update && echo 'pw' | sudo -S apt install -y vim"].
Proof.
  assert (Hin : In (mkCall "10.0.0.2" "deploy" "pw"
        "echo 'pw' | sudo -S apt update && echo 'pw' | sudo -S apt install -y vim")
     (snd (installSoftwareHandler sampleServers remoteDown
             (postForm "10.0.0.2" "common" "common_software" "vim")))).
  { left. vm_compute. reflexivity. }
  exact (proj2 (handler_calls_registered_server sampleServers remoteDown _ _ Hin)).
Defined.

Lemma handler_status_codes_witness :
  fst (installSoftwareHandler sampleServers remoteOK
         (postForm "10.9.9.9" "common" "common_software" "git"))
  = HttpError "Server not found" 404 /\
  ((404 = 405 /\ "POST" <> MethodPost) \/
   (404 = 404 /\ "POST" = MethodPost /\
    exists form,
      ParseOK [("server_ip", "10.9.9.9"); ("software_type", "common");
               ("common_software", "git")] = ParseOK form /\
      FormValue form "server_ip" <> "" /\
      sampleServers !! FormValue form "server_ip" = None) \/
   (404 = 400 /\ "POST" = MethodPost /\
    ((exists err,
        ParseOK [("server_ip", "10.9.9.9"); ("software_type", "common");
                 ("common_software", "git")] = ParseErr err) \/
     exists form,
       ParseOK [("server_ip", "10.9.9.9"); ("software_type", "common");
                ("common_software", "git")] = ParseOK form /\
       (FormValue form "server_ip" = "" \/
        (FormValue form "server_ip" <> "" /\
         is_Some (sampleServers !! FormValue form "server_ip") /\
         selectInstallCommand form
         = inl (HttpError "Server not found" 400)))))).
Proof.
  assert (H : fst (installSoftwareHandler sampleServers remoteOK
                     (postForm "10.9.9.9" "common" "common_software" "git"))
              = HttpError "Server not found" 404).
  { vm_compute. reflexivity. }
  split; [exact H|].
  exact (handler_status_codes sampleServers remoteOK _ _ _ H).
Defined.

Lemma blank_custom_name_rejected_witness :
  installSoftwareHandler sampleServers remoteOK
    (postForm "10.0.0.1" "custom" "custom_software" ("  " +:+ tab +:+ nl))
  = (HttpError "Custom software name is required" 400, []).
Proof.
  apply (blank_custom_name_rejected sampleServers remoteOK
           (postForm "10.0.0.1" "custom" "custom_software" ("  " +:+ tab +:+ nl))
           "10.0.0.1" ("  " +:+ tab +:+ nl) (mkServer "root" "secret")).
  - split; [reflexivity|]. eexists. repeat split; reflexivity.
  - discriminate.
  - vm_compute. reflexivity.
  - vm_compute. repeat constructor.
Defined.

Lemma renderLog_outcomes_differ_witness :
  renderLog "10.0.0.1" "apk add vim" "done" None
  <> renderLog "10.0.0.1" "apk add vim" "done" (Some "connection refused").
Proof. apply renderLog_outcomes_differ. Defined.

(** ** Other servers do not matter *)

(** A request reads the registry at the address it names and nowhere
    else: two registries that agree on that address give the same answer
    and the same remote call. *)
Theorem handler_reads_one_server
    (ipMap1 ipMap2 : gmap string Server)
    (runRemoteCommand : string -> string -> string -> string -> string * option string)
    (r : Request) :
  (forall form, ParseForm r = ParseOK form ->
     ipMap1 !! FormValue form "server_ip" = ipMap2 !! FormValue form "server_ip") ->
  installSoftwareHandler ipMap1 runRemoteCommand r
  = installSoftwareHandler ipMap2 runRemoteCommand r.
Proof.
  intros Hagree. unfold installSoftwareHandler.
  destruct (negb (String.eqb (Method r) MethodPost)); [reflexivity|].
  destruct (ParseForm r) as [err|form]; [reflexivity|].
  rewrite (Hagree form eq_refl). reflexivity.
Qed.

Lemma handler_reads_one_server_witness :
  installSoftwareHandler sampleServers remoteOK
    (postForm "10.0.0.2" "custom" "custom_software" "htop")
  = installSoftwareHandler sampleServersRotated remoteOK
      (postForm "10.0.0.2" "custom" "custom_software" "htop").
Proof.
  apply handler_reads_one_server.
  intros form [= <-]. vm_compute. reflexivity.
Defined.
